(** * CAFI classification clean-up: the raster-correction pipeline

    A shallow embedding of [CAFI_classification_cleanup.py].  The script builds
    one lazy Earth Engine expression per stage; every stage is a pixel-wise
    map-algebra expression over the assets declared at its top.  An image is
    modelled by its value at every pixel of the common grid, a masked (no-data)
    pixel being [None], and by its footprint, which [clip] cuts and [unmask]
    respects; the operators of the engine are given their documented
    pixel-wise meaning in module [ee]; the stages are then transcribed line by
    line, under the names the script gives them. *)

From Stdlib Require Import ZArith List Bool Lia.
Import ListNotations.
Open Scope Z_scope.

(** ** Data model *)

(** The data of an asset on the common grid of the run: a value per pixel, or
    no data there.  The pixels are those the assets all cover. *)
Definition Raster (Pixel : Type) : Type := Pixel -> option Z.

(** A single-band image of the engine: a value per pixel, or no data there
    (a masked pixel), together with the footprint of the image.  An asset
    covers the grid; only [clip] makes a footprint smaller. *)
Record Image (Pixel : Type) : Type := mkImage {
  px :> Pixel -> option Z;
  footprint : Pixel -> bool
}.

Arguments mkImage {Pixel} _ _.
Arguments px {Pixel} _ _.
Arguments footprint {Pixel} _ _.

(** A vector geometry, by the pixels it covers. *)
Definition Geometry (Pixel : Type) : Type := Pixel -> bool.

(** An image collection, in the order of the collection. *)
Definition ImageCollection (Pixel : Type) : Type := list (Image Pixel).

Definition b2z (b : bool) : Z := if b then 1 else 0.

(** First match of [v] in [from], answered by the entry of [to] at the same
    position. *)
Fixpoint lookup (from to : list Z) (v : Z) : option Z :=
  match from, to with
  | f :: from', t :: to' => if v =? f then Some t else lookup from' to' v
  | _, _ => None
  end.

(** ** The operators of the engine

    Binary operators answer only where both operands have data: a pixel
    masked in either operand is masked in the result, which is why the script
    ends its boolean combinations with [unmask].  [where_]
    follows its documentation: "if the corresponding pixel in test is nonzero,
    output the corresponding pixel in value, otherwise output the input pixel.
    If at a given pixel, either test or value is masked, the input value is
    used.  If the input is masked, nothing is done. ...  The output image
    retains the metadata and footprint of the input image."  [remap] without a
    default value masks the values it does not find.  [clip] masks the data
    that the geometry does not cover and cuts the footprint to the geometry.
    [unmask], called as the script calls it, without arguments, replaces
    no-data by 0 and "retains the footprint of the input": outside the
    footprint, so outside an earlier [clip], the pixel stays without data. *)
Module ee.
Section Ops.
Context {Pixel : Type}.

(** [ee.Image("...")]: an asset loaded as an image. *)
Definition asset (r : Raster Pixel) : Image Pixel :=
  mkImage r (fun _ => true).

(** [ee.ImageCollection("...")]: the images of a catalogue. *)
Definition assets (rs : list (Raster Pixel)) : ImageCollection Pixel :=
  map asset rs.

Definition constant (v : Z) : Image Pixel :=
  mkImage (fun _ => Some v) (fun _ => true).

Definition binop (f : Z -> Z -> Z) (a b : Image Pixel) : Image Pixel :=
  mkImage
    (fun p =>
       match a p, b p with
       | Some x, Some y => Some (f x y)
       | _, _ => None
       end)
    (fun p => footprint a p && footprint b p).

Definition eq := binop (fun x y => b2z (x =? y)).
Definition neq := binop (fun x y => b2z (negb (x =? y))).
Definition lt := binop (fun x y => b2z (x <? y)).
Definition lte := binop (fun x y => b2z (x <=? y)).
Definition gt := binop (fun x y => b2z (x >? y)).
Definition gte := binop (fun x y => b2z (x >=? y)).
Definition And := binop (fun x y => b2z (negb (x =? 0) && negb (y =? 0))).
Definition Or := binop (fun x y => b2z (negb (x =? 0) || negb (y =? 0))).
Definition add := binop Z.add.

Definition unmask (a : Image Pixel) : Image Pixel :=
  mkImage
    (fun p =>
       match a p with
       | Some v => Some v
       | None => if footprint a p then Some 0 else None
       end)
    (footprint a).

Definition updateMask (a mask : Image Pixel) : Image Pixel :=
  mkImage
    (fun p =>
       match mask p with
       | Some m => if m =? 0 then None else a p
       | None => None
       end)
    (footprint a).

Definition clip (a : Image Pixel) (g : Geometry Pixel) : Image Pixel :=
  mkImage (fun p => if g p then a p else None)
          (fun p => footprint a p && g p).

Definition where_ (input test value : Image Pixel) : Image Pixel :=
  mkImage
    (fun p =>
       match input p with
       | None => None
       | Some v =>
           match test p, value p with
           | Some t, Some w => if t =? 0 then Some v else Some w
           | _, _ => Some v
           end
       end)
    (footprint input).

Definition remap (a : Image Pixel) (from to : list Z) : Image Pixel :=
  mkImage (fun p => match a p with Some v => lookup from to v | None => None end)
          (footprint a).

(** Later images of the collection lie on top.  The collection is a catalogue
    asset and covers the grid like every asset. *)
Definition mosaic (c : ImageCollection Pixel) : Image Pixel :=
  mkImage
    (fold_left
       (fun below (img : Image Pixel) p =>
          match img p with Some v => Some v | None => below p end)
       c (fun _ => None))
    (fun _ => true).

(** The collections of the script are fixed public catalogues; an empty one
    is given the image without data. *)
Definition first (c : ImageCollection Pixel) : Image Pixel :=
  hd (mkImage (fun _ => None) (fun _ => true)) c.
End Ops.
End ee.

(** ** Declared input data *)

(** The assets the script loads, by the last component of their identifier. *)
Record Assets (Pixel : Type) : Type := {
  NASAdem_congo : Raster Pixel;
  OS_GABON_2015 : Raster Pixel;
  JRC_GSW1_3_YearlyHistory : list (Raster Pixel);
  cafi_classification_alos : Raster Pixel;
  cafi_classification_no_alos : Raster Pixel;
  aoi_cafi : Geometry Pixel;
  GHSL_BUILT_LDSMT_GLOBE_V1 : Raster Pixel;
  congo_basin_lsib : Geometry Pixel;
  cafi_countries : Raster Pixel;
  treecover_2015_30m : Raster Pixel;
  annobon_cafi_2014 : Raster Pixel;
  cafi_mangroves_2015 : Raster Pixel;
  ESA_WorldCover_v100 : list (Raster Pixel)
}.

Arguments NASAdem_congo {Pixel} _.
Arguments OS_GABON_2015 {Pixel} _.
Arguments JRC_GSW1_3_YearlyHistory {Pixel} _.
Arguments cafi_classification_alos {Pixel} _.
Arguments cafi_classification_no_alos {Pixel} _.
Arguments aoi_cafi {Pixel} _.
Arguments GHSL_BUILT_LDSMT_GLOBE_V1 {Pixel} _.
Arguments congo_basin_lsib {Pixel} _.
Arguments cafi_countries {Pixel} _.
Arguments treecover_2015_30m {Pixel} _.
Arguments annobon_cafi_2014 {Pixel} _.
Arguments cafi_mangroves_2015 {Pixel} _.
Arguments ESA_WorldCover_v100 {Pixel} _.

(** ** The pipeline *)

Section Pipeline.
Context {Pixel : Type}.

(** [focal_max radius img]: the engine's morphological maximum filter with a
    square kernel of the given radius in meters.  It is the one operator of
    the script that is not pixel-wise; the pipeline is stated for any such
    filter. *)
Variable focal_max : Z -> Image Pixel -> Image Pixel.

Variable A : Assets Pixel.

Definition dem := ee.asset (NASAdem_congo A).
Definition gabon_os := ee.asset (OS_GABON_2015 A).
Definition water := ee.assets (JRC_GSW1_3_YearlyHistory A).
Definition class2015 := ee.asset (cafi_classification_alos A).
Definition class2015_no_alos := ee.asset (cafi_classification_no_alos A).
Definition aoi := aoi_cafi A.
Definition GHSbuiltup := ee.asset (GHSL_BUILT_LDSMT_GLOBE_V1 A).
Definition builtup := ee.remap GHSbuiltup [1;2;3;4;5;6] [0;0;1;1;1;1].
Definition lsib := congo_basin_lsib A.
Definition countries_raster := ee.asset (cafi_countries A).
Definition treecover2015 := ee.asset (treecover_2015_30m A).
Definition not_gabon := ee.neq countries_raster (ee.constant 6).
Definition holes :=
  ee.unmask (ee.And (ee.neq not_gabon (ee.constant 1))
                    (ee.eq gabon_os (ee.constant 128))).
Definition water_area := ee.clip (ee.mosaic water) aoi.
Definition seasonal :=
  ee.unmask (ee.eq (ee.clip water_area aoi) (ee.constant 2)).
Definition permanent :=
  ee.unmask (ee.eq (ee.clip water_area aoi) (ee.constant 3)).
Definition annobon := ee.unmask (ee.asset (annobon_cafi_2014 A)).
Definition anno_area := ee.unmask (ee.gt annobon (ee.constant 0)).
Definition car_cam :=
  ee.Or (ee.eq countries_raster (ee.constant 2))
        (ee.eq countries_raster (ee.constant 3)).
Definition mangroves := ee.asset (cafi_mangroves_2015 A).
Definition ESA_worldcover := ee.assets (ESA_WorldCover_v100 A).

(** 1. Recode classes from SEPAL to Code DDD *)
Definition class_values : list Z := [1;2;3;4;5;6;7;8;9;10;11;12;13;14;15].
Definition reclass_values : list Z := [1;2;3;4;7;8;9;11;12;13;14;15;16;17;18].
Definition classDDD := ee.unmask (ee.remap class2015 class_values reclass_values).
Definition classDDD_no_alos :=
  ee.unmask (ee.remap class2015_no_alos
               [1;2;3;4;5;6;7;8;9;10;11;12;13;14;15]
               [1;2;3;4;7;8;9;11;12;13;14;15;16;17;18]).

(** 2. fix ALOS holes *)
Definition alosholes := ee.add (ee.eq classDDD (ee.constant 0)) (ee.constant 1).
Definition classDDD_fill :=
  ee.where_ classDDD (ee.eq alosholes (ee.constant 2)) classDDD_no_alos.

(** 3. fix built up area *)
Definition built17 : Image Pixel := ee.constant 17.
Definition built_wrong :=
  ee.And (ee.eq classDDD_fill (ee.constant 17)) (ee.neq builtup (ee.constant 1)).
Definition class2015_fix :=
  ee.where_ classDDD_fill (ee.eq builtup (ee.constant 1)) built17.
Definition class2015_fix1 :=
  ee.clip (ee.where_ class2015_fix (ee.eq built_wrong (ee.constant 1)) (ee.constant 15))
          aoi.

(** 4. apply treecover for closed and open forest *)
Definition claire := ee.lt treecover2015 (ee.constant 60).
Definition dense := ee.gte treecover2015 (ee.constant 60).
Definition forest_to_split :=
  ee.Or (ee.eq class2015_fix1 (ee.constant 2)) (ee.eq class2015_fix1 (ee.constant 4)).
Definition forestclaireseche :=
  ee.And (ee.eq forest_to_split (ee.constant 1)) (ee.eq claire (ee.constant 1)).
Definition forestdenseseche :=
  ee.And (ee.eq forest_to_split (ee.constant 1)) (ee.eq dense (ee.constant 1)).
Definition class2015_fix2 :=
  ee.where_ class2015_fix1 (ee.eq forestclaireseche (ee.constant 1)) (ee.constant 4).
Definition class2015_fix3 :=
  ee.where_ class2015_fix2 (ee.eq forestdenseseche (ee.constant 1)) (ee.constant 2).

(** 5. fix montane forest based on elevation *)
Definition montane :=
  ee.And (ee.gte dem (ee.constant 1750)) (ee.eq class2015_fix1 (ee.constant 1)).
Definition submontane :=
  ee.And (ee.lt dem (ee.constant 1750))
         (ee.And (ee.gte dem (ee.constant 1100)) (ee.eq class2015_fix1 (ee.constant 1))).
Definition class2015_fix4 :=
  ee.where_ class2015_fix3 (ee.eq submontane (ee.constant 1)) (ee.constant 5).
Definition class2015_fix5 :=
  ee.where_ class2015_fix4 (ee.eq montane (ee.constant 1)) (ee.constant 6).
Definition gabon_mask := ee.neq gabon_os (ee.constant 128).

(** 6. fix mangrove based on elevation and within a 500m buffer of ESA
    Mangrove 2020 *)
Definition ESA_mang :=
  ee.clip (ee.eq (ee.first ESA_worldcover) (ee.constant 95)) aoi.
Definition buffer_dist : Z := 500.
Definition mang_buffer := focal_max buffer_dist ESA_mang.
Definition mangarea :=
  ee.unmask
    (ee.updateMask
       (ee.And (ee.lte dem (ee.constant 35)) (ee.lte class2015_fix5 (ee.constant 12)))
       mang_buffer).
Definition nomang :=
  ee.unmask (ee.Or (ee.gte dem (ee.constant 35)) (ee.eq countries_raster (ee.constant 3))).
Definition mangadd :=
  ee.unmask (ee.And (ee.eq mangroves (ee.constant 1)) (ee.eq mangarea (ee.constant 1))).
Definition mangfix :=
  ee.unmask (ee.And (ee.eq mangroves (ee.constant 1)) (ee.eq nomang (ee.constant 1))).
Definition class2015_fix6 :=
  ee.where_ class2015_fix5 (ee.eq mangadd (ee.constant 1)) (ee.constant 7).
Definition class2015_fix7 :=
  ee.where_ class2015_fix6 (ee.eq mangfix (ee.constant 1)) (ee.constant 8).

(** 7. fix water and prairies with JRC data *)
Definition prairie :=
  ee.And (ee.eq seasonal (ee.constant 1))
         (ee.And (ee.neq class2015_fix7 (ee.constant 14))
                 (ee.neq class2015_fix7 (ee.constant 18))).
Definition class2015_fixwater1 :=
  ee.where_ class2015_fix7 (ee.eq prairie (ee.constant 1)) (ee.constant 14).
Definition class2015_fixwater :=
  ee.unmask (ee.where_ class2015_fixwater1 (ee.eq permanent (ee.constant 1)) (ee.constant 18)).

(** 8. add gabon and annobon data *)
Definition class2015_wgab :=
  ee.where_ class2015_fixwater (ee.neq not_gabon (ee.constant 1)) gabon_os.
Definition class2015_clean :=
  ee.where_ class2015_wgab (ee.eq holes (ee.constant 1)) class2015_fixwater.
Definition class2015_final :=
  ee.where_ class2015_clean (ee.gt anno_area (ee.constant 0)) annobon.

(** 9. apply forest definitions to cameroun and central african republic *)
Definition caf_sav :=
  ee.And (ee.eq car_cam (ee.constant 1)) (ee.eq class2015_final (ee.constant 12)).
Definition fnf :=
  ee.clip
    (ee.remap class2015_final
       [1;2;3;4;5;6;7;8;9;11;12;13;14;15;16;17;18]
       [1;1;1;1;1;1;1;1;1;1;2;2;2;2;2;2;3])
    aoi.
Definition fnf_final :=
  ee.clip (ee.where_ fnf (ee.eq caf_sav (ee.constant 1)) (ee.constant 1)) lsib.
End Pipeline.

(** Whether an image has data at a pixel. *)
Definition has_data {Pixel : Type} (a : Image Pixel) (p : Pixel) : bool :=
  match a p with Some _ => true | None => false end.

(** The assets of a run in which the run without ALOS is the run with ALOS. *)
Definition same_secondary {Pixel : Type} (A : Assets Pixel) : Assets Pixel :=
  {| NASAdem_congo := NASAdem_congo A;
     OS_GABON_2015 := OS_GABON_2015 A;
     JRC_GSW1_3_YearlyHistory := JRC_GSW1_3_YearlyHistory A;
     cafi_classification_alos := cafi_classification_alos A;
     cafi_classification_no_alos := cafi_classification_alos A;
     aoi_cafi := aoi_cafi A;
     GHSL_BUILT_LDSMT_GLOBE_V1 := GHSL_BUILT_LDSMT_GLOBE_V1 A;
     congo_basin_lsib := congo_basin_lsib A;
     cafi_countries := cafi_countries A;
     treecover_2015_30m := treecover_2015_30m A;
     annobon_cafi_2014 := annobon_cafi_2014 A;
     cafi_mangroves_2015 := cafi_mangroves_2015 A;
     ESA_WorldCover_v100 := ESA_WorldCover_v100 A |}.

(** ** A concrete grid, for evaluating the pipeline *)

Module Grid.
Definition Pixel : Type := (Z * Z)%type.

Definition opt_max (a b : option Z) : option Z :=
  match a, b with
  | Some x, Some y => Some (Z.max x y)
  | Some x, None => Some x
  | None, _ => b
  end.

Definition offsets (r : Z) : list Z :=
  map (fun i => Z.of_nat i - r) (seq 0 (Z.to_nat (2 * r + 1))).

(** A maximum filter over the square window of [radius] meters around the
    pixel, on a grid of 30 m pixels (the scale of the exports); pixels
    without data do not contribute. *)
Definition focal_max (radius : Z) (img : Image Pixel) : Image Pixel :=
  mkImage
    (fun p =>
       let r := radius / 30 in
       fold_right opt_max None
         (flat_map (fun dx => map (fun dy => img (fst p + dx, snd p + dy)) (offsets r))
                   (offsets r)))
    (footprint img).

(** A scene in which every layer is the same at every pixel. *)
Definition uniform (elevation country class_alos class_no_alos built tree
                    mangrove worldcover national island : option Z)
                   (water_years : list (option Z))
                   (in_aoi in_lsib : bool) : Assets Pixel :=
  {| NASAdem_congo := fun _ => elevation;
     OS_GABON_2015 := fun _ => national;
     JRC_GSW1_3_YearlyHistory := map (fun w _ => w) water_years;
     cafi_classification_alos := fun _ => class_alos;
     cafi_classification_no_alos := fun _ => class_no_alos;
     aoi_cafi := fun _ => in_aoi;
     GHSL_BUILT_LDSMT_GLOBE_V1 := fun _ => built;
     congo_basin_lsib := fun _ => in_lsib;
     cafi_countries := fun _ => country;
     treecover_2015_30m := fun _ => tree;
     annobon_cafi_2014 := fun _ => island;
     cafi_mangroves_2015 := fun _ => mangrove;
     ESA_WorldCover_v100 := [fun _ => worldcover] |}.

Definition origin : Pixel := (0, 0).

(** A coastal mangrove pixel of country 2: 3 m above sea level, mapped as
    mangrove by every source. *)
Definition coast_country2 : Assets Pixel :=
  uniform (Some 3) (Some 2) (Some 5) (Some 5) (Some 1) (Some 70)
          (Some 1) (Some 95) None None [Some 1] true true.

(** A lowland pixel of country 3 that every source maps as mangrove. *)
Definition lowland_country3 : Assets Pixel :=
  uniform (Some 10) (Some 3) (Some 5) (Some 5) (Some 1) (Some 70)
          (Some 1) (Some 95) None None [Some 1] true true.

(** A highland pixel of country 1 that the internal layer maps as mangrove. *)
Definition highland_country1 : Assets Pixel :=
  uniform (Some 400) (Some 1) (Some 5) (Some 5) (Some 1) (Some 70)
          (Some 1) (Some 0) None None [Some 1] true true.

(** A mangrove pixel exactly 35 m above sea level, in country 1. *)
Definition shore35_country1 : Assets Pixel :=
  uniform (Some 35) (Some 1) (Some 5) (Some 5) (Some 1) (Some 70)
          (Some 1) (Some 95) None None [Some 1] true true.

(** The same pixel where the country raster has no data. *)
Definition shore35_no_country : Assets Pixel :=
  uniform (Some 35) None (Some 5) (Some 5) (Some 1) (Some 70)
          (Some 1) (Some 95) None None [Some 1] true true.

(** Shrub savanna (SEPAL class 9, DDD class 12) in country 2. *)
Definition savanna_country2 : Assets Pixel :=
  uniform (Some 600) (Some 2) (Some 9) (Some 9) (Some 1) (Some 20)
          None None None None [Some 1] true true.

(** The same savanna at a pixel that the boundary vector does not cover. *)
Definition savanna_off_boundary : Assets Pixel :=
  uniform (Some 600) (Some 2) (Some 9) (Some 9) (Some 1) (Some 20)
          None None None None [Some 1] true false.

(** Dense forest (class 1) at 1800 m with 80 percent tree cover. *)
Definition mountain_forest : Assets Pixel :=
  uniform (Some 1800) (Some 1) (Some 1) (Some 1) (Some 1) (Some 80)
          None None None None [Some 1] true true.

(** Cropland (SEPAL class 13, DDD class 16) seen as seasonal water one year
    and as permanent water the next. *)
Definition flooded_cropland : Assets Pixel :=
  uniform (Some 300) (Some 1) (Some 13) (Some 13) (Some 1) (Some 5)
          None None None None [Some 2; Some 3] true true.
End Grid.

(** Further scenes, for the stages one at a time. *)
Module Scenes.
(** A village of the classification (SEPAL class 14, DDD class 17) that the
    settlement layer grades as not built (level 1). *)
Definition village_unconfirmed : Assets Grid.Pixel :=
  Grid.uniform (Some 300) (Some 1) (Some 14) (Some 14) (Some 1) (Some 5)
               None None None None [Some 1] true true.

(** The same village where the settlement layer has no data. *)
Definition village_no_layer : Assets Grid.Pixel :=
  Grid.uniform (Some 300) (Some 1) (Some 14) (Some 14) None (Some 5)
               None None None None [Some 1] true true.

(** Dry dense forest (class 2) with 40 percent tree cover. *)
Definition thin_dry_forest : Assets Grid.Pixel :=
  Grid.uniform (Some 300) (Some 1) (Some 2) (Some 2) (Some 1) (Some 40)
               None None None None [Some 1] true true.

(** Dense forest (class 1) at 1200 m. *)
Definition hill_forest : Assets Grid.Pixel :=
  Grid.uniform (Some 1200) (Some 1) (Some 1) (Some 1) (Some 1) (Some 80)
               None None None None [Some 1] true true.

(** Swamp forest (SEPAL class 6, DDD class 8) on the coast of country 2 that
    both mangrove layers map as mangrove. *)
Definition coast_swamp : Assets Grid.Pixel :=
  Grid.uniform (Some 3) (Some 2) (Some 6) (Some 6) (Some 1) (Some 70)
               (Some 1) (Some 95) None None [Some 1] true true.

(** The same swamp forest where only the internal layer maps mangrove. *)
Definition swamp_off_buffer : Assets Grid.Pixel :=
  Grid.uniform (Some 3) (Some 2) (Some 6) (Some 6) (Some 1) (Some 70)
               (Some 1) (Some 10) None None [Some 1] true true.

(** Cropland (DDD class 16) seen as permanent water one year and as seasonal
    water the next. *)
Definition receding_water : Assets Grid.Pixel :=
  Grid.uniform (Some 300) (Some 1) (Some 13) (Some 13) (Some 1) (Some 5)
               None None None None [Some 3; Some 2] true true.

(** Shrub savanna in country 3. *)
Definition savanna_country3 : Assets Grid.Pixel :=
  Grid.uniform (Some 600) (Some 3) (Some 9) (Some 9) (Some 1) (Some 20)
               None None None None [Some 1] true true.

(** Shrub savanna in country 5. *)
Definition savanna_country5 : Assets Grid.Pixel :=
  Grid.uniform (Some 600) (Some 5) (Some 9) (Some 9) (Some 1) (Some 20)
               None None None None [Some 1] true true.

(** A pixel of country 6 where the national map says class 10 and the
    regional one dense forest. *)
Definition gabon_plantation : Assets Grid.Pixel :=
  Grid.uniform (Some 300) (Some 6) (Some 1) (Some 1) (Some 1) (Some 80)
               None None (Some 10) None [Some 1] true true.

(** A pixel of country 6 outside the study area, where the national map says
    class 9. *)
Definition gabon_outside : Assets Grid.Pixel :=
  Grid.uniform (Some 300) (Some 6) (Some 1) (Some 1) (Some 1) (Some 80)
               None None (Some 9) None [Some 1] false true.

(** A pixel of the island map, of class 5, inside the study area. *)
Definition island_inside : Assets Grid.Pixel :=
  Grid.uniform (Some 300) (Some 1) None None None None
               None None None (Some 5) [] true true.

(** The same island pixel outside the study area. *)
Definition island_outside : Assets Grid.Pixel :=
  Grid.uniform (Some 300) (Some 1) None None None None
               None None None (Some 5) [] false true.
End Scenes.

(** ** Closed forms used to state what the stages compute *)

(** The codes of the DDD legend that the regional stages can write, with 0 for
    an unclassified pixel: 0 to 18 without 10. *)
Definition ddd_code (v : Z) : bool :=
  (0 <=? v) && (v <=? 18) && negb (v =? 10).

(** An image holds nothing but such codes at a pixel. *)
Definition all_codes {Pixel : Type} (a : Image Pixel) (p : Pixel) : Prop :=
  forall v, a p = Some v -> ddd_code v = true.

(** The lookup of stage 9 by ranges: forest, non-forest, water, or no match. *)
Definition fnf_code (c : Z) : option Z :=
  if ((1 <=? c) && (c <=? 9)) || (c =? 11) then Some 1
  else if (12 <=? c) && (c <=? 17) then Some 2
  else if c =? 18 then Some 3
  else None.

(** The built-up confidence levels by ranges: levels 1 and 2 are not built,
    levels 3 to 6 are built, anything else has no match. *)
Definition builtup_code (g : Z) : option Z :=
  if (1 <=? g) && (g <=? 2) then Some 0
  else if (3 <=? g) && (g <=? 6) then Some 1
  else None.

(** * Properties *)

(** ** The engine's operators at one pixel *)

(** The footprints that are the whole grid: those of the assets and of what
    is computed from assets alone. *)
Ltac on_grid :=
  repeat match goal with
    | |- context [footprint ?a ?p] => progress change (footprint a p) with true
    end.

(** A flag that [unmask] has lowered, or left without data, is not raised. *)
Ltac not_raised :=
  repeat match goal with
    | |- context [if ?b then Some 0 else None] => destruct b
    end;
  try discriminate.

(** A flag that is 0 inside the footprint and without data outside it. *)
Ltac by_footprint :=
  match goal with
  | |- context [if ?b then Some 0 else None] => destruct b
  end; auto.

Ltac pointwise :=
  unfold ee.where_, ee.eq, ee.neq, ee.lt, ee.lte, ee.gt, ee.gte, ee.And, ee.Or,
    ee.add, ee.binop, ee.unmask, ee.updateMask, ee.clip, ee.remap, ee.constant,
    ee.asset, has_data in *;
  cbn [px footprint] in *;
  on_grid; cbn [andb].

Section EngineFacts.
Context {Pixel : Type}.
Implicit Types (a b input test value : Image Pixel) (p : Pixel).

Lemma has_data_unmask a p :
  has_data (ee.unmask a) p = has_data a p || footprint a p.
Proof. pointwise. destruct (a p), (footprint a p); reflexivity. Qed.

Lemma unmask_at a p v : a p = Some v -> ee.unmask a p = Some v.
Proof. intros H. pointwise. rewrite H. reflexivity. Qed.

Lemma unmask_inside a p : a p = None -> footprint a p = true -> ee.unmask a p = Some 0.
Proof. intros H Hf. pointwise. rewrite H, Hf. reflexivity. Qed.

Lemma unmask_outside a p : a p = None -> footprint a p = false -> ee.unmask a p = None.
Proof. intros H Hf. pointwise. rewrite H, Hf. reflexivity. Qed.

Lemma has_data_where input test value p :
  has_data (ee.where_ input test value) p = has_data input p.
Proof.
  pointwise. destruct (input p), (test p) as [t|], (value p); simpl;
    try destruct (t =? 0); reflexivity.
Qed.

Lemma has_data_clip a (g : Geometry Pixel) p :
  has_data (ee.clip a g) p = has_data a p && g p.
Proof. pointwise. destruct (g p), (a p); reflexivity. Qed.

Lemma has_data_Some a p : has_data a p = true -> exists v, a p = Some v.
Proof. unfold has_data. destruct (a p) as [v|]; [eauto | discriminate]. Qed.

(** A test that is nonzero, with a value to write, replaces the input. *)
Lemma where_hit input test value p t :
  has_data input p = true -> test p = Some t -> t <> 0 ->
  has_data value p = true ->
  ee.where_ input test value p = value p.
Proof.
  pointwise. intros Hi Ht Hnz Hv. rewrite Ht.
  destruct (input p); [| discriminate].
  destruct (value p); [| discriminate].
  destruct (Z.eqb_spec t 0); [contradiction | reflexivity].
Qed.

(** A test that is zero or without data leaves the input as it is. *)
Lemma where_miss input test value p :
  test p = Some 0 \/ test p = None -> ee.where_ input test value p = input p.
Proof.
  pointwise. intros [Ht | Ht]; rewrite Ht; destruct (input p); try reflexivity.
  destruct (value p); reflexivity.
Qed.

(** Nothing is written where the input has no data. *)
Lemma where_masked input test value p :
  input p = None -> ee.where_ input test value p = None.
Proof. intros H. pointwise. rewrite H. reflexivity. Qed.

(** A flag compared with 1. *)
Lemma eq1_at a p : ee.eq a (ee.constant 1) p = option_map (fun x => b2z (x =? 1)) (a p).
Proof. pointwise. destruct (a p); reflexivity. Qed.

Lemma eq1_of_flag a p : a p = Some 1 -> ee.eq a (ee.constant 1) p = Some 1.
Proof. intros H. rewrite eq1_at, H. reflexivity. Qed.

Lemma eq1_of_zero a p : a p = Some 0 -> ee.eq a (ee.constant 1) p = Some 0.
Proof. intros H. rewrite eq1_at, H. reflexivity. Qed.
End EngineFacts.

(** ** Where the stages carry data *)

Section Extent.
Context {Pixel : Type}.
Variable focal_max : Z -> Image Pixel -> Image Pixel.
Variable A : Assets Pixel.
Implicit Types p : Pixel.

Lemma has_data_classDDD p : has_data (classDDD A) p = true.
Proof. unfold classDDD. rewrite has_data_unmask. apply orb_true_r. Qed.

Lemma has_data_classDDD_no_alos p : has_data (classDDD_no_alos A) p = true.
Proof. unfold classDDD_no_alos. rewrite has_data_unmask. apply orb_true_r. Qed.

(** The clip of stage 3 is the footprint of every later stage. *)
Lemma footprint_fix1 p : footprint (class2015_fix1 A) p = aoi A p.
Proof. reflexivity. Qed.

Lemma footprint_fix5 p : footprint (class2015_fix5 A) p = aoi A p.
Proof. reflexivity. Qed.

Lemma footprint_fixwater1 p : footprint (class2015_fixwater1 focal_max A) p = aoi A p.
Proof. reflexivity. Qed.

Lemma has_data_fix1 p : has_data (class2015_fix1 A) p = aoi A p.
Proof.
  unfold class2015_fix1, class2015_fix, classDDD_fill.
  rewrite has_data_clip, !has_data_where, has_data_classDDD. reflexivity.
Qed.

Lemma has_data_fix3 p : has_data (class2015_fix3 A) p = aoi A p.
Proof.
  unfold class2015_fix3, class2015_fix2.
  rewrite !has_data_where. apply has_data_fix1.
Qed.

Lemma has_data_fix5 p : has_data (class2015_fix5 A) p = aoi A p.
Proof.
  unfold class2015_fix5, class2015_fix4.
  rewrite !has_data_where. apply has_data_fix3.
Qed.

Lemma has_data_fix6 p : has_data (class2015_fix6 focal_max A) p = aoi A p.
Proof. unfold class2015_fix6. rewrite has_data_where. apply has_data_fix5. Qed.

Lemma has_data_fix7 p : has_data (class2015_fix7 focal_max A) p = aoi A p.
Proof. unfold class2015_fix7. rewrite has_data_where. apply has_data_fix6. Qed.

Lemma has_data_fixwater1 p : has_data (class2015_fixwater1 focal_max A) p = aoi A p.
Proof. unfold class2015_fixwater1. rewrite has_data_where. apply has_data_fix7. Qed.

(** The regional classification has data exactly inside the study area: the
    [unmask] that ends stage 7 keeps the footprint of the clip. *)
Lemma has_data_fixwater p : has_data (class2015_fixwater focal_max A) p = aoi A p.
Proof.
  unfold class2015_fixwater.
  rewrite has_data_unmask, has_data_where, has_data_fixwater1.
  change (footprint _ p) with (aoi A p). apply orb_diag.
Qed.

Lemma has_data_annobon p : has_data (annobon A) p = true.
Proof. unfold annobon. rewrite has_data_unmask. apply orb_true_r. Qed.

(** The permanent-water flag is raised only inside the study area. *)
Lemma permanent_inside p : permanent A p = Some 1 -> aoi A p = true.
Proof.
  unfold permanent, water_area. pointwise.
  destruct (aoi A p); [reflexivity |]. simpl. discriminate.
Qed.
End Extent.

(** ** Stages 4 and 5: canopy density and elevation *)

Section Forest.
Context {Pixel : Type}.
Variable A : Assets Pixel.
Implicit Types p : Pixel.

(** Outside the two codes that are split, neither split mask is raised. *)
Lemma forest_to_split_other p v :
  class2015_fix1 A p = Some v -> v <> 2 -> v <> 4 -> forest_to_split A p = Some 0.
Proof.
  intros Hv H2 H4. unfold forest_to_split. pointwise. rewrite Hv.
  destruct (Z.eqb_spec v 2), (Z.eqb_spec v 4); try contradiction. reflexivity.
Qed.

(** With the split mask at 0, neither overwrite of stage 4 has a raised test,
    whatever the tree cover layer holds. *)
Lemma claire_test_lowered p :
  forest_to_split A p = Some 0 ->
  ee.eq (forestclaireseche A) (ee.constant 1) p = Some 0
  \/ ee.eq (forestclaireseche A) (ee.constant 1) p = None.
Proof.
  intros Hs. unfold forestclaireseche. pointwise. rewrite Hs.
  destruct (claire A p); simpl; auto.
Qed.

Lemma dense_test_lowered p :
  forest_to_split A p = Some 0 ->
  ee.eq (forestdenseseche A) (ee.constant 1) p = Some 0
  \/ ee.eq (forestdenseseche A) (ee.constant 1) p = None.
Proof.
  intros Hs. unfold forestdenseseche. pointwise. rewrite Hs.
  destruct (dense A p); simpl; auto.
Qed.

(** Base forest (1) goes through stage 4 untouched. *)
Lemma base_forest_not_split p :
  class2015_fix1 A p = Some 1 -> class2015_fix3 A p = Some 1.
Proof.
  intros Hc.
  assert (Hs : forest_to_split A p = Some 0)
    by (apply (forest_to_split_other p 1 Hc); lia).
  unfold class2015_fix3, class2015_fix2.
  rewrite (where_miss _ _ _ p (dense_test_lowered p Hs)).
  rewrite (where_miss _ _ _ p (claire_test_lowered p Hs)).
  exact Hc.
Qed.

Lemma has_data_fix4_fix1 p : has_data (class2015_fix4 A) p = has_data (class2015_fix1 A) p.
Proof.
  unfold class2015_fix4, class2015_fix3, class2015_fix2.
  rewrite !has_data_where. reflexivity.
Qed.

(** Base forest at or above 1750 m becomes montane forest. *)
Lemma montane_forest p e :
  class2015_fix1 A p = Some 1 -> dem A p = Some e -> 1750 <= e ->
  class2015_fix5 A p = Some 6.
Proof.
  intros Hc He Hge. unfold class2015_fix5.
  rewrite (where_hit _ _ _ p 1); try reflexivity; try lia.
  - rewrite has_data_fix4_fix1. unfold has_data. rewrite Hc. reflexivity.
  - apply eq1_of_flag. unfold montane. pointwise. rewrite He, Hc.
    destruct (Z.geb_spec e 1750); [reflexivity | lia].
Qed.
End Forest.

(** C9. Canopy Density Splitter, frame property: a pixel whose class before
    the stage is neither of the two forest codes being split (2 and 4) keeps
    its value (or its absence of data) through the stage, whatever the tree
    cover layer holds there. *)
Theorem canopy_split_frame {Pixel : Type} (A : Assets Pixel) (p : Pixel) :
  class2015_fix1 A p <> Some 2 ->
  class2015_fix1 A p <> Some 4 ->
  class2015_fix3 A p = class2015_fix1 A p.
Proof.
  intros H2 H4. unfold class2015_fix3, class2015_fix2.
  destruct (class2015_fix1 A p) as [v|] eqn:Hv.
  - assert (Hs : forest_to_split A p = Some 0)
      by (apply (forest_to_split_other A p v Hv); congruence).
    rewrite (where_miss _ _ _ p (dense_test_lowered A p Hs)).
    rewrite (where_miss _ _ _ p (claire_test_lowered A p Hs)).
    exact Hv.
  - apply where_masked, where_masked, Hv.
Qed.

Lemma canopy_split_frame_witness :
  class2015_fix1 Grid.savanna_country2 Grid.origin <> Some 2
  /\ class2015_fix1 Grid.savanna_country2 Grid.origin <> Some 4
  /\ class2015_fix3 Grid.savanna_country2 Grid.origin
     = class2015_fix1 Grid.savanna_country2 Grid.origin.
Proof.
  split; [vm_compute; discriminate |].
  split; [vm_compute; discriminate |].
  apply (canopy_split_frame Grid.savanna_country2 Grid.origin);
    vm_compute; discriminate.
Defined.

(** C8. Stages 4 and 5 end to end: a pixel classed base forest (1) before the
    canopy split, at elevation 1800 with tree cover 80, is still 1 after the
    split and is montane forest (6) after the elevation typing, hence neither
    4 nor 5. *)
Theorem base_forest_1800_is_montane {Pixel : Type} (A : Assets Pixel) (p : Pixel) :
  class2015_fix1 A p = Some 1 ->
  dem A p = Some 1800 ->
  treecover2015 A p = Some 80 ->
  class2015_fix3 A p = Some 1
  /\ class2015_fix5 A p = Some 6
  /\ class2015_fix5 A p <> Some 4
  /\ class2015_fix5 A p <> Some 5.
Proof.
  intros Hc He _.
  assert (H6 : class2015_fix5 A p = Some 6)
    by (apply (montane_forest A p 1800 Hc He); lia).
  split.
  - exact (base_forest_not_split A p Hc).
  - rewrite H6. repeat split; congruence.
Qed.

Lemma base_forest_1800_is_montane_witness :
  class2015_fix5 Grid.mountain_forest Grid.origin = Some 6.
Proof.
  apply (base_forest_1800_is_montane Grid.mountain_forest Grid.origin);
    reflexivity.
Defined.

(** ** Stage 6: mangroves *)

Section Mangrove.
Context {Pixel : Type}.
Variable focal_max : Z -> Image Pixel -> Image Pixel.
Variable A : Assets Pixel.
Implicit Types p : Pixel.

(** The erroneous-area flag needs both layers of its disjunction. *)
Lemma nomang_at p e c :
  dem A p = Some e -> countries_raster A p = Some c ->
  nomang A p = Some (b2z ((35 <=? e) || (c =? 3))).
Proof.
  intros He Hc. unfold nomang. pointwise. rewrite He, Hc.
  rewrite Z.geb_leb. destruct (35 <=? e), (c =? 3); reflexivity.
Qed.

Lemma nomang_raised p e c :
  dem A p = Some e -> countries_raster A p = Some c -> 35 <= e \/ c = 3 ->
  nomang A p = Some 1.
Proof.
  intros He Hc H. rewrite (nomang_at p e c He Hc).
  destruct (Z.leb_spec 35 e), (Z.eqb_spec c 3); try reflexivity. lia.
Qed.

Lemma nomang_no_country p : countries_raster A p = None -> nomang A p = Some 0.
Proof.
  intros Hc. unfold nomang. pointwise. rewrite Hc.
  destruct (dem A p); reflexivity.
Qed.

Lemma nomang_inv p :
  nomang A p = Some 1 ->
  exists e c, dem A p = Some e /\ countries_raster A p = Some c /\ (35 <= e \/ c = 3).
Proof.
  unfold nomang. pointwise.
  destruct (dem A p) as [e|]; [| discriminate].
  destruct (countries_raster A p) as [c|]; [| discriminate].
  intros H. exists e, c. repeat split.
  rewrite Z.geb_leb in H.
  destruct (Z.leb_spec 35 e); [now left |].
  destruct (Z.eqb_spec c 3); [now right | discriminate].
Qed.

Lemma mangarea_raised p e v b :
  dem A p = Some e -> e <= 35 ->
  class2015_fix5 A p = Some v -> v <= 12 ->
  mang_buffer focal_max A p = Some b -> b <> 0 ->
  mangarea focal_max A p = Some 1.
Proof.
  intros He Hle Hv Hv12 Hb Hnz. unfold mangarea. pointwise.
  rewrite Hb, He, Hv.
  destruct (Z.eqb_spec b 0); [contradiction |].
  destruct (Z.leb_spec e 35), (Z.leb_spec v 12); try lia. reflexivity.
Qed.

Lemma mangarea_inv p :
  mangarea focal_max A p = Some 1 ->
  exists e v b,
    dem A p = Some e /\ e <= 35 /\ class2015_fix5 A p = Some v /\ v <= 12
    /\ mang_buffer focal_max A p = Some b /\ b <> 0.
Proof.
  unfold mangarea. pointwise.
  destruct (mang_buffer focal_max A p) as [b|]; [| not_raised].
  destruct (Z.eqb_spec b 0); [not_raised |].
  destruct (dem A p) as [e|]; [| not_raised].
  destruct (class2015_fix5 A p) as [v|]; [| not_raised].
  intros H. exists e, v, b.
  destruct (Z.leb_spec e 35), (Z.leb_spec v 12); try discriminate.
  repeat split; assumption.
Qed.

Lemma mangadd_raised p :
  mangroves A p = Some 1 -> mangarea focal_max A p = Some 1 ->
  mangadd focal_max A p = Some 1.
Proof. intros Hm Ha. unfold mangadd. pointwise. rewrite Hm, Ha. reflexivity. Qed.

Lemma mangfix_raised p :
  mangroves A p = Some 1 -> nomang A p = Some 1 -> mangfix A p = Some 1.
Proof. intros Hm Hn. unfold mangfix. pointwise. rewrite Hm, Hn. reflexivity. Qed.

Lemma mangfix_lowered p : nomang A p = Some 0 -> mangfix A p = Some 0.
Proof.
  intros Hn. unfold mangfix. pointwise. rewrite Hn.
  destruct (mangroves A p) as [m|]; [| reflexivity].
  simpl. rewrite andb_false_r. reflexivity.
Qed.

(** The second overwrite of the stage, where its mask is raised. *)
Lemma swamp_overwrite p :
  aoi A p = true -> mangfix A p = Some 1 -> class2015_fix7 focal_max A p = Some 8.
Proof.
  intros Hin Hf. unfold class2015_fix7.
  rewrite (where_hit _ _ _ p 1); try reflexivity; try lia.
  - rewrite has_data_fix6. exact Hin.
  - apply eq1_of_flag, Hf.
Qed.

(** The first overwrite of the stage, where its mask is raised. *)
Lemma mangrove_overwrite p :
  aoi A p = true -> mangadd focal_max A p = Some 1 ->
  class2015_fix6 focal_max A p = Some 7.
Proof.
  intros Hin Hf. unfold class2015_fix6.
  rewrite (where_hit _ _ _ p 1); try reflexivity; try lia.
  - rewrite has_data_fix5. exact Hin.
  - apply eq1_of_flag, Hf.
Qed.

Lemma inside_of_fix5 p v : class2015_fix5 A p = Some v -> aoi A p = true.
Proof.
  intros Hv. rewrite <- has_data_fix5. unfold has_data. rewrite Hv. reflexivity.
Qed.
End Mangrove.

(** C1 (as amended). Mangrove Corrector, erroneous-area rule: for every pixel
    inside the study area at which the elevation and the country code both have
    data, where the internal mangrove indicator equals 1 and (elevation > 35 m
    or the country code equals 3, the one country the stage tests), the stage-6
    output class is swamp forest (8). *)
Theorem erroneous_mangrove_becomes_swamp {Pixel : Type}
    (focal_max : Z -> Image Pixel -> Image Pixel) (A : Assets Pixel) (p : Pixel)
    (e c : Z) :
  aoi A p = true ->
  mangroves A p = Some 1 ->
  dem A p = Some e ->
  countries_raster A p = Some c ->
  e > 35 \/ c = 3 ->
  class2015_fix7 focal_max A p = Some 8.
Proof.
  intros Hin Hm He Hc Herr.
  apply swamp_overwrite; [exact Hin |].
  apply mangfix_raised; [exact Hm |].
  apply (nomang_raised A p e c He Hc). lia.
Qed.

Lemma erroneous_mangrove_becomes_swamp_witness :
  class2015_fix7 Grid.focal_max Grid.highland_country1 Grid.origin = Some 8.
Proof.
  apply (erroneous_mangrove_becomes_swamp Grid.focal_max Grid.highland_country1
           Grid.origin 400 1); try reflexivity.
  left. lia.
Defined.

(** C1 as stated fails in country 2, the other country of the script's only
    designated pair ([car_cam]): a coastal pixel there, 3 m above sea level,
    with the internal mangrove indicator at 1, leaves stage 6 as mangrove (7). *)
Lemma erroneous_mangrove_pair_counterexample :
  mangroves Grid.coast_country2 Grid.origin = Some 1
  /\ countries_raster Grid.coast_country2 Grid.origin = Some 2
  /\ car_cam Grid.coast_country2 Grid.origin = Some 1
  /\ class2015_fix7 Grid.focal_max Grid.coast_country2 Grid.origin = Some 7
  /\ ~ (mangroves Grid.coast_country2 Grid.origin = Some 1 ->
        (exists e, dem Grid.coast_country2 Grid.origin = Some e /\ e > 35)
        \/ car_cam Grid.coast_country2 Grid.origin = Some 1 ->
        class2015_fix7 Grid.focal_max Grid.coast_country2 Grid.origin = Some 8).
Proof.
  assert (H7 : class2015_fix7 Grid.focal_max Grid.coast_country2 Grid.origin = Some 7)
    by (vm_compute; reflexivity).
  repeat split; try reflexivity; try exact H7.
  intros H. rewrite H7 in H.
  assert (Some 7 = Some 8) by (apply H; [reflexivity | right; reflexivity]).
  discriminate.
Qed.

(** C2 (as amended). The addable-mangrove mask [mangarea] and the
    erroneous-mangrove mask [nomang] are never both raised at a pixel that is
    not in country 3 and whose elevation is not exactly 35 m. *)
Theorem mangarea_nomang_disjoint {Pixel : Type}
    (focal_max : Z -> Image Pixel -> Image Pixel) (A : Assets Pixel) (p : Pixel) :
  countries_raster A p <> Some 3 ->
  dem A p <> Some 35 ->
  ~ (mangarea focal_max A p = Some 1 /\ nomang A p = Some 1).
Proof.
  intros Hc3 He35 [Ha Hn].
  destruct (mangarea_inv focal_max A p Ha) as (e & v & b & He & Hle & _).
  destruct (nomang_inv A p Hn) as (e' & c & He' & Hc & Herr).
  rewrite He in He'. injection He' as <-.
  destruct Herr as [Hge | ->]; [| contradiction].
  apply He35. rewrite He. f_equal. lia.
Qed.

Lemma mangarea_nomang_disjoint_witness :
  ~ (mangarea Grid.focal_max Grid.coast_country2 Grid.origin = Some 1
     /\ nomang Grid.coast_country2 Grid.origin = Some 1).
Proof.
  apply (mangarea_nomang_disjoint Grid.focal_max Grid.coast_country2 Grid.origin);
    vm_compute; discriminate.
Defined.

(** C2 as stated fails in country 3: a pixel there at 10 m, of class at most
    12 and inside the dilated buffer, raises both masks. *)
Lemma mangarea_nomang_overlap :
  dem Grid.lowland_country3 Grid.origin = Some 10
  /\ countries_raster Grid.lowland_country3 Grid.origin = Some 3
  /\ class2015_fix5 Grid.lowland_country3 Grid.origin = Some 7
  /\ mang_buffer Grid.focal_max Grid.lowland_country3 Grid.origin = Some 1
  /\ mangarea Grid.focal_max Grid.lowland_country3 Grid.origin = Some 1
  /\ nomang Grid.lowland_country3 Grid.origin = Some 1.
Proof. repeat split; vm_compute; reflexivity. Qed.

(** C10 (as amended). At an elevation of exactly 35 m, a pixel with the
    mangrove indicator at 1, a current class of at most 12, inside the dilated
    mangrove buffer, and with data in the country-code raster, raises both the
    addable mask and the erroneous mask; it is written 7 by the first overwrite
    and ends stage 6 as swamp forest (8). *)
Theorem mangrove_at_35m_becomes_swamp {Pixel : Type}
    (focal_max : Z -> Image Pixel -> Image Pixel) (A : Assets Pixel) (p : Pixel)
    (v b c : Z) :
  mangroves A p = Some 1 ->
  class2015_fix5 A p = Some v -> v <= 12 ->
  mang_buffer focal_max A p = Some b -> b <> 0 ->
  dem A p = Some 35 ->
  countries_raster A p = Some c ->
  mangarea focal_max A p = Some 1
  /\ nomang A p = Some 1
  /\ class2015_fix6 focal_max A p = Some 7
  /\ class2015_fix7 focal_max A p = Some 8.
Proof.
  intros Hm Hv Hv12 Hb Hnz He Hc.
  assert (Hin : aoi A p = true) by exact (inside_of_fix5 A p v Hv).
  assert (Ha : mangarea focal_max A p = Some 1)
    by (apply (mangarea_raised focal_max A p 35 v b); auto; lia).
  assert (Hn : nomang A p = Some 1)
    by (apply (nomang_raised A p 35 c He Hc); lia).
  repeat split; auto.
  - apply mangrove_overwrite; [exact Hin |]. apply mangadd_raised; assumption.
  - apply swamp_overwrite; [exact Hin |]. apply mangfix_raised; assumption.
Qed.

Lemma mangrove_at_35m_becomes_swamp_witness :
  class2015_fix7 Grid.focal_max Grid.shore35_country1 Grid.origin = Some 8.
Proof.
  apply (mangrove_at_35m_becomes_swamp Grid.focal_max Grid.shore35_country1
           Grid.origin 7 1 1); try (vm_compute; reflexivity); lia.
Defined.

(** C10 as stated fails where the country-code raster has no data: the
    disjunction behind the erroneous mask is then without data, the mask is 0
    after [unmask], and the pixel leaves stage 6 as mangrove (7). *)
Lemma mangrove_at_35m_no_country :
  mangroves Grid.shore35_no_country Grid.origin = Some 1
  /\ class2015_fix5 Grid.shore35_no_country Grid.origin = Some 7
  /\ mang_buffer Grid.focal_max Grid.shore35_no_country Grid.origin = Some 1
  /\ dem Grid.shore35_no_country Grid.origin = Some 35
  /\ countries_raster Grid.shore35_no_country Grid.origin = None
  /\ nomang Grid.shore35_no_country Grid.origin = Some 0
  /\ class2015_fix7 Grid.focal_max Grid.shore35_no_country Grid.origin = Some 7.
Proof. repeat split; vm_compute; reflexivity. Qed.

(** ** Stage 7: hydrology *)

(** C4. Hydrology Corrector: a pixel whose permanent-water flag equals 1 leaves
    stage 7 as water (18), whatever its seasonal flag and whatever its class
    before the stage. *)
Theorem permanent_water_wins {Pixel : Type}
    (focal_max : Z -> Image Pixel -> Image Pixel) (A : Assets Pixel) (p : Pixel) :
  permanent A p = Some 1 ->
  class2015_fixwater focal_max A p = Some 18.
Proof.
  intros Hp. unfold class2015_fixwater. apply unmask_at.
  rewrite (where_hit _ _ _ p 1); try reflexivity; try lia.
  - rewrite has_data_fixwater1. exact (permanent_inside A p Hp).
  - apply eq1_of_flag, Hp.
Qed.

Lemma permanent_water_wins_witness :
  seasonal Grid.flooded_cropland Grid.origin = Some 0
  /\ class2015_fix7 Grid.focal_max Grid.flooded_cropland Grid.origin = Some 16
  /\ class2015_fixwater Grid.focal_max Grid.flooded_cropland Grid.origin = Some 18.
Proof.
  split; [vm_compute; reflexivity |].
  split; [vm_compute; reflexivity |].
  apply (permanent_water_wins Grid.focal_max Grid.flooded_cropland Grid.origin).
  vm_compute; reflexivity.
Defined.

(** ** Stage 8: national and island data *)

Section Mosaic.
Context {Pixel : Type}.
Variable focal_max : Z -> Image Pixel -> Image Pixel.
Variable A : Assets Pixel.
Implicit Types p : Pixel.

(** The presence indicator of the island, from the island layer. *)
Lemma anno_area_at p :
  anno_area A p = match annobon_cafi_2014 A p with
                  | Some a => Some (b2z (0 <? a))
                  | None => Some 0
                  end.
Proof.
  unfold anno_area, annobon. pointwise.
  destruct (annobon_cafi_2014 A p) as [a|]; [| reflexivity].
  rewrite Z.gtb_ltb. reflexivity.
Qed.

Lemma annobon_at p a : annobon_cafi_2014 A p = Some a -> annobon A p = Some a.
Proof. intros H. unfold annobon. apply unmask_at. exact H. Qed.

Lemma has_data_clean p : has_data (class2015_clean focal_max A) p = aoi A p.
Proof.
  unfold class2015_clean, class2015_wgab.
  rewrite !has_data_where. apply has_data_fixwater.
Qed.

Lemma island_wins p :
  aoi A p = true ->
  anno_area A p = Some 1 -> class2015_final focal_max A p = annobon A p.
Proof.
  intros Hin Ha. unfold class2015_final.
  apply (where_hit _ _ _ p 1); try lia.
  - rewrite has_data_clean. exact Hin.
  - pointwise. rewrite Ha. reflexivity.
  - apply has_data_annobon.
Qed.

Lemma no_island p :
  anno_area A p = Some 0 ->
  class2015_final focal_max A p = class2015_clean focal_max A p.
Proof.
  intros Ha. unfold class2015_final. apply where_miss.
  left. pointwise. rewrite Ha. reflexivity.
Qed.

(** The composite below the island: the national value inside country 6
    where there is one other than 128, the regional value elsewhere. *)
Lemma clean_at p :
  aoi A p = true ->
  class2015_clean focal_max A p =
    match countries_raster A p, gabon_os A p with
    | Some c, Some g =>
        if (c =? 6) && negb (g =? 128) then Some g
        else class2015_fixwater focal_max A p
    | _, _ => class2015_fixwater focal_max A p
    end.
Proof.
  intros Hin.
  assert (Hd : has_data (class2015_fixwater focal_max A) p = true)
    by (rewrite has_data_fixwater; exact Hin).
  destruct (has_data_Some _ p Hd) as [r Hr].
  unfold class2015_clean, class2015_wgab, holes, not_gabon. pointwise.
  rewrite Hr.
  destruct (countries_raster A p) as [c|]; [| reflexivity].
  destruct (gabon_os A p) as [g|].
  - destruct (c =? 6), (g =? 128); reflexivity.
  - destruct (c =? 6); reflexivity.
Qed.

(** Outside the study area the regional classification has no data, and
    neither overlay writes where there is none. *)
Lemma fixwater_outside p :
  aoi A p = false -> class2015_fixwater focal_max A p = None.
Proof.
  intros Hout. pose proof (has_data_fixwater focal_max A p) as H.
  rewrite Hout in H. unfold has_data in H.
  destruct (class2015_fixwater focal_max A p); [discriminate | reflexivity].
Qed.

Lemma final_outside p :
  aoi A p = false -> class2015_final focal_max A p = None.
Proof.
  intros Hout. unfold class2015_final, class2015_clean, class2015_wgab.
  apply where_masked, where_masked, where_masked, fixwater_outside, Hout.
Qed.

Lemma inside_of_final p c : class2015_final focal_max A p = Some c -> aoi A p = true.
Proof.
  intros Hc. destruct (aoi A p) eqn:Hin; [reflexivity |].
  rewrite (final_outside p Hin) in Hc. discriminate.
Qed.
End Mosaic.

(** C3 (as amended). Regional Override and Mosaic: for every pixel inside the
    study area, the stage-8 output is the island's class value wherever the
    island dataset is positive.  Elsewhere it is the regional classification
    outside country 6; inside country 6 it is the national dataset's value,
    except where the national dataset carries 128 (or has no value at all),
    where it is the regional classification. *)
Theorem regional_override_mosaic {Pixel : Type}
    (focal_max : Z -> Image Pixel -> Image Pixel) (A : Assets Pixel) (p : Pixel) :
  aoi A p = true ->
  (forall a, annobon_cafi_2014 A p = Some a -> 0 < a ->
             class2015_final focal_max A p = Some a)
  /\ ((forall a, annobon_cafi_2014 A p = Some a -> a <= 0) ->
      (countries_raster A p <> Some 6 ->
       class2015_final focal_max A p = class2015_fixwater focal_max A p)
      /\ (forall g, countries_raster A p = Some 6 -> gabon_os A p = Some g ->
                    g <> 128 -> class2015_final focal_max A p = Some g)
      /\ (countries_raster A p = Some 6 ->
          gabon_os A p = Some 128 \/ gabon_os A p = None ->
          class2015_final focal_max A p = class2015_fixwater focal_max A p)).
Proof.
  intros Hin. split.
  - intros a Ha Hpos.
    assert (Hi : anno_area A p = Some 1).
    { rewrite anno_area_at, Ha. destruct (Z.ltb_spec 0 a); [reflexivity | lia]. }
    rewrite (island_wins focal_max A p Hin Hi). exact (annobon_at A p a Ha).
  - intros Hnone.
    assert (Hi : anno_area A p = Some 0).
    { rewrite anno_area_at. destruct (annobon_cafi_2014 A p) as [a|]; [| reflexivity].
      specialize (Hnone a eq_refl). destruct (Z.ltb_spec 0 a); [lia | reflexivity]. }
    rewrite (no_island focal_max A p Hi), (clean_at focal_max A p Hin).
    repeat split.
    + intros Hc. destruct (countries_raster A p) as [c|]; [| reflexivity].
      destruct (gabon_os A p) as [g|]; [| reflexivity].
      destruct (Z.eqb_spec c 6); [congruence | reflexivity].
    + intros g -> -> Hg. simpl.
      destruct (Z.eqb_spec g 128); [contradiction | reflexivity].
    + intros -> [-> | ->]; reflexivity.
Qed.

Lemma regional_override_mosaic_witness :
  class2015_final Grid.focal_max Scenes.gabon_plantation Grid.origin = Some 10
  /\ class2015_final Grid.focal_max Scenes.island_inside Grid.origin = Some 5.
Proof.
  split.
  - destruct (regional_override_mosaic Grid.focal_max Scenes.gabon_plantation
                Grid.origin eq_refl) as [_ Hland].
    destruct Hland as (_ & Hnational & _); [intros a; discriminate |].
    apply (Hnational 10); [reflexivity | reflexivity | lia].
  - destruct (regional_override_mosaic Grid.focal_max Scenes.island_inside
                Grid.origin eq_refl) as [Hisland _].
    apply (Hisland 5); [reflexivity | lia].
Defined.

(** C3 as stated fails outside the study area: the regional classification is
    clipped in stage 3 and has no data there, and neither the national
    substitution nor the island overlay writes where its input has none.  A
    pixel of country 6 with the national class 9, and a pixel with the island
    class 5, both end stage 8 without data. *)
Lemma regional_override_outside_study_area :
  aoi Scenes.gabon_outside Grid.origin = false
  /\ countries_raster Scenes.gabon_outside Grid.origin = Some 6
  /\ gabon_os Scenes.gabon_outside Grid.origin = Some 9
  /\ class2015_final Grid.focal_max Scenes.gabon_outside Grid.origin = None
  /\ aoi Scenes.island_outside Grid.origin = false
  /\ annobon Scenes.island_outside Grid.origin = Some 5
  /\ anno_area Scenes.island_outside Grid.origin = Some 1
  /\ class2015_final Grid.focal_max Scenes.island_outside Grid.origin = None.
Proof. repeat split; vm_compute; reflexivity. Qed.

(** ** Stage 9: forest / non-forest *)

Section ForestMask.
Context {Pixel : Type}.
Variable focal_max : Z -> Image Pixel -> Image Pixel.
Variable A : Assets Pixel.
Implicit Types p : Pixel.

Lemma fnf_of_savanna p :
  class2015_final focal_max A p = Some 12 ->
  fnf focal_max A p = if aoi A p then Some 2 else None.
Proof. intros H. unfold fnf. pointwise. rewrite H. reflexivity. Qed.

(** The pair of countries of stage 9, from the country codes. *)
Lemma car_cam_pair p :
  countries_raster A p = Some 2 \/ countries_raster A p = Some 3 ->
  car_cam A p = Some 1.
Proof. intros [H | H]; unfold car_cam; pointwise; rewrite H; reflexivity. Qed.

Lemma caf_sav_raised p :
  car_cam A p = Some 1 -> class2015_final focal_max A p = Some 12 ->
  caf_sav focal_max A p = Some 1.
Proof. intros Hc Hf. unfold caf_sav. pointwise. rewrite Hc, Hf. reflexivity. Qed.

Lemma fnf_final_of_savanna p :
  car_cam A p = Some 1 -> class2015_final focal_max A p = Some 12 ->
  fnf_final focal_max A p = if aoi A p && lsib A p then Some 1 else None.
Proof.
  intros Hc Hf. unfold fnf_final.
  pose proof (fnf_of_savanna p Hf) as Hfnf.
  pose proof (caf_sav_raised p Hc Hf) as Hsav.
  pointwise. rewrite Hfnf, Hsav.
  destruct (aoi A p), (lsib A p); reflexivity.
Qed.
End ForestMask.

(** C7 (as amended). Forest/Non-Forest Derivation, country override: for every
    pixel whose country code is in the designated pair (2 or 3) and whose
    pre-remap class is shrub savanna (12), the default remap answers
    non-forest (2) inside the study area, and the 3-class output is forest (1)
    if the pixel lies inside both the study area and the country-boundary
    vector, and without data otherwise. *)
Theorem savanna_override {Pixel : Type}
    (focal_max : Z -> Image Pixel -> Image Pixel) (A : Assets Pixel) (p : Pixel) :
  countries_raster A p = Some 2 \/ countries_raster A p = Some 3 ->
  class2015_final focal_max A p = Some 12 ->
  fnf focal_max A p = (if aoi A p then Some 2 else None)
  /\ fnf_final focal_max A p = (if aoi A p && lsib A p then Some 1 else None).
Proof.
  intros Hc Hf. split.
  - apply fnf_of_savanna, Hf.
  - apply fnf_final_of_savanna; [apply car_cam_pair, Hc | exact Hf].
Qed.

Lemma savanna_override_witness :
  (fnf Grid.focal_max Grid.savanna_country2 Grid.origin = Some 2
   /\ fnf_final Grid.focal_max Grid.savanna_country2 Grid.origin = Some 1)
  /\ (fnf Grid.focal_max Scenes.savanna_country3 Grid.origin = Some 2
      /\ fnf_final Grid.focal_max Scenes.savanna_country3 Grid.origin = Some 1).
Proof.
  split.
  - apply (savanna_override Grid.focal_max Grid.savanna_country2 Grid.origin);
      [left | ]; vm_compute; reflexivity.
  - apply (savanna_override Grid.focal_max Scenes.savanna_country3 Grid.origin);
      [right | ]; vm_compute; reflexivity.
Defined.

(** C7 as stated fails at a pixel of country 2, of class 12, that the
    country-boundary vector does not cover: the final clip leaves it without
    data. *)
Lemma savanna_override_off_boundary :
  countries_raster Grid.savanna_off_boundary Grid.origin = Some 2
  /\ car_cam Grid.savanna_off_boundary Grid.origin = Some 1
  /\ class2015_final Grid.focal_max Grid.savanna_off_boundary Grid.origin = Some 12
  /\ lsib Grid.savanna_off_boundary Grid.origin = false
  /\ fnf_final Grid.focal_max Grid.savanna_off_boundary Grid.origin = None.
Proof. repeat split; vm_compute; reflexivity. Qed.

(** ** Stages 1 and 2: recoding and gap filling *)

Section Lookup.
Implicit Types (from to : list Z) (v t : Z).

Lemma lookup_In from to v t : lookup from to v = Some t -> In t to.
Proof.
  revert to. induction from as [| f from IH]; intros [| t' to]; simpl;
    try discriminate.
  destruct (v =? f).
  - intros [= ->]. now left.
  - intros H. right. exact (IH to H).
Qed.

Lemma lookup_absent from to v : ~ In v from -> lookup from to v = None.
Proof.
  revert to. induction from as [| f from IH]; intros [| t' to] Hn; simpl;
    try reflexivity.
  destruct (Z.eqb_spec v f) as [-> | _].
  - exfalso. apply Hn. now left.
  - apply IH. intros Hin. apply Hn. now right.
Qed.

Lemma lookup_nth from to (i : nat) :
  NoDup from -> length from = length to -> (i < length from)%nat ->
  lookup from to (nth i from 0) = Some (nth i to 0).
Proof.
  revert to i. induction from as [| f from IH]; intros [| t' to] i Hnd Hlen Hi;
    simpl in *; try lia.
  inversion Hnd as [| ? ? Hnotin Hnd']; subst.
  destruct i as [| i].
  - rewrite Z.eqb_refl. reflexivity.
  - destruct (Z.eqb_spec (nth i from 0) f) as [Heq | _].
    + exfalso. apply Hnotin. rewrite <- Heq. apply nth_In. lia.
    + apply IH; [assumption | lia | lia].
Qed.

Lemma NoDup_class_values : NoDup class_values.
Proof.
  unfold class_values.
  repeat (constructor; [simpl; intros H; intuition discriminate |]).
  constructor.
Qed.
End Lookup.

(** C5. Class Remapper: at every pixel the recoded class is an element of
    [reclass_values] or 0; a pixel whose input equals [class_values[i]] becomes
    [reclass_values[i]]; a pixel whose input is not in [class_values] (or has
    no data) becomes 0. *)
Theorem class_remapper {Pixel : Type} (A : Assets Pixel) (p : Pixel) :
  (exists t, classDDD A p = Some t /\ (In t reclass_values \/ t = 0))
  /\ (forall i : nat, (i < length class_values)%nat ->
        class2015 A p = Some (nth i class_values 0) ->
        classDDD A p = Some (nth i reclass_values 0))
  /\ ((forall v, class2015 A p = Some v -> ~ In v class_values) ->
      classDDD A p = Some 0).
Proof.
  unfold classDDD. pointwise. repeat split.
  - destruct (class2015 A p) as [v|]; [| exists 0; auto].
    destruct (lookup class_values reclass_values v) as [t|] eqn:Hl.
    + exists t. split; [reflexivity |]. left. exact (lookup_In _ _ _ _ Hl).
    + exists 0. auto.
  - intros i Hi ->.
    rewrite lookup_nth; [reflexivity | apply NoDup_class_values | reflexivity | exact Hi].
  - intros Habs. destruct (class2015 A p) as [v|]; [| reflexivity].
    rewrite lookup_absent; [reflexivity | apply Habs; reflexivity].
Qed.

(** C6. Gap Filler: at every pixel the filled classification equals the
    primary one where the primary is not 0, whatever the secondary holds there,
    and the secondary one where the primary is 0; filling the primary with
    itself gives the primary back. *)
Theorem gap_filler {Pixel : Type} (A : Assets Pixel) (p : Pixel) :
  (classDDD A p <> Some 0 -> classDDD_fill A p = classDDD A p)
  /\ (classDDD A p = Some 0 -> classDDD_fill A p = classDDD_no_alos A p)
  /\ classDDD_fill (same_secondary A) p = classDDD A p.
Proof.
  assert (Hfill : forall B : Assets Pixel,
             classDDD_fill B p
             = match classDDD B p with
               | Some 0 => classDDD_no_alos B p
               | other => other
               end).
  { intros B.
    destruct (has_data_Some _ p (has_data_classDDD_no_alos B p)) as [w Hw].
    unfold classDDD_fill, alosholes. pointwise. rewrite Hw.
    destruct (classDDD B p) as [v|]; [| reflexivity].
    destruct v; reflexivity. }
  repeat split.
  - intros Hne. rewrite Hfill. destruct (classDDD A p) as [[| |]|]; congruence.
  - intros H0. rewrite Hfill, H0. reflexivity.
  - rewrite Hfill.
    change (classDDD_no_alos (same_secondary A) p) with (classDDD A p).
    change (classDDD (same_secondary A) p) with (classDDD A p).
    destruct (classDDD A p) as [[| |]|]; reflexivity.
Qed.

(** * Further properties of the stages *)

(** ** The lookup tables by ranges *)

Lemma lookup_builtup g :
  lookup [1;2;3;4;5;6] [0;0;1;1;1;1] g = builtup_code g.
Proof.
  unfold builtup_code. simpl.
  repeat match goal with
    | |- context [g =? ?k] => destruct (Z.eqb_spec g k); [subst; reflexivity |]
    end.
  destruct (Z.leb_spec 1 g), (Z.leb_spec g 2), (Z.leb_spec 3 g), (Z.leb_spec g 6);
    simpl; try reflexivity; lia.
Qed.

Lemma lookup_fnf c :
  lookup [1;2;3;4;5;6;7;8;9;11;12;13;14;15;16;17;18]
         [1;1;1;1;1;1;1;1;1;1;2;2;2;2;2;2;3] c = fnf_code c.
Proof.
  unfold fnf_code. simpl.
  repeat match goal with
    | |- context [if c =? ?k then _ else _] =>
        destruct (Z.eqb_spec c k); [subst; reflexivity |]
    end.
  destruct (Z.leb_spec 1 c), (Z.leb_spec c 9), (Z.eqb_spec c 11),
    (Z.leb_spec 12 c), (Z.leb_spec c 17), (Z.eqb_spec c 18);
    simpl; try reflexivity; lia.
Qed.

(** ** Stage 3: built-up areas *)

Section BuiltUp.
Context {Pixel : Type}.
Variable A : Assets Pixel.
Implicit Types p : Pixel.

Lemma builtup_at p :
  builtup A p = match GHSbuiltup A p with
                | Some g => builtup_code g
                | None => None
                end.
Proof.
  unfold builtup, ee.remap. cbn [px footprint]. destruct (GHSbuiltup A p) as [g|]; [| reflexivity].
  apply lookup_builtup.
Qed.

Lemma has_data_fill p : has_data (classDDD_fill A) p = true.
Proof. unfold classDDD_fill. rewrite has_data_where. apply has_data_classDDD. Qed.

(** Stage 3 at one pixel: inside the study area the built-up flag writes 17, a
    17 that the flag contradicts becomes 15, and everything else, a pixel
    without built-up data included, keeps the class of stage 2. *)
Lemma fix1_at p :
  class2015_fix1 A p =
    if aoi A p then
      match classDDD_fill A p, builtup A p with
      | Some v, Some b =>
          if b =? 1 then Some 17 else if v =? 17 then Some 15 else Some v
      | other, _ => other
      end
    else None.
Proof.
  unfold class2015_fix1, class2015_fix, built_wrong, built17. pointwise.
  destruct (aoi A p); [| reflexivity].
  destruct (classDDD_fill A p) as [v|]; [| reflexivity].
  destruct (builtup A p) as [b|]; [| reflexivity].
  destruct (Z.eqb_spec b 1); simpl.
  - rewrite andb_false_r. reflexivity.
  - destruct (Z.eqb_spec v 17); reflexivity.
Qed.
End BuiltUp.

Ltac range_cases :=
  repeat match goal with
    | H : exists _, _ |- _ => destruct H as (? & ? & ?)
    | H : _ \/ _ |- _ => destruct H
    | H : Some _ = Some _ |- _ => injection H as ?; subst
    end.

(** X1. The built-up indicator is 1 exactly on the confidence levels 3 to 6 of
    the settlement layer, 0 exactly on the levels 1 and 2, and has no data on
    any other value and where the layer has none. *)
Theorem builtup_levels {Pixel : Type} (A : Assets Pixel) (p : Pixel) :
  (builtup A p = Some 1 <-> exists g, GHSbuiltup A p = Some g /\ 3 <= g <= 6)
  /\ (builtup A p = Some 0 <-> exists g, GHSbuiltup A p = Some g /\ 1 <= g <= 2)
  /\ (builtup A p = None <->
      GHSbuiltup A p = None
      \/ exists g, GHSbuiltup A p = Some g /\ (g < 1 \/ 6 < g))
  /\ (forall b, builtup A p = Some b -> b = 0 \/ b = 1).
Proof.
  rewrite builtup_at.
  destruct (GHSbuiltup A p) as [g|].
  - assert (Hcode : (builtup_code g = Some 1 /\ 3 <= g <= 6)
                    \/ (builtup_code g = Some 0 /\ 1 <= g <= 2)
                    \/ (builtup_code g = None /\ (g < 1 \/ 6 < g))).
    { unfold builtup_code.
      destruct (Z.leb_spec 1 g), (Z.leb_spec g 2), (Z.leb_spec 3 g), (Z.leb_spec g 6);
        simpl; try lia; auto. }
    destruct Hcode as [[-> Hg] | [[-> Hg] | [-> Hg]]];
      repeat split; intros; range_cases;
      try discriminate; try reflexivity; try lia; auto;
      try (eexists; split; [reflexivity | lia]);
      try (right; eexists; split; [reflexivity | lia]).
  - repeat split; intros; range_cases; try discriminate; auto.
Qed.

(** X2. After stage 3, inside the study area and where the built-up indicator
    has data, the class is built-up (17) if and only if the indicator is 1. *)
Theorem builtup_decides_class17 {Pixel : Type} (A : Assets Pixel) (p : Pixel) (b : Z) :
  aoi A p = true ->
  builtup A p = Some b ->
  (class2015_fix1 A p = Some 17 <-> b = 1).
Proof.
  intros Hin Hb. rewrite fix1_at, Hin, Hb.
  destruct (has_data_Some _ p (has_data_fill A p)) as [v ->].
  destruct (Z.eqb_spec b 1); [tauto |].
  destruct (Z.eqb_spec v 17); split; intros H; try congruence.
Qed.

Lemma builtup_decides_class17_witness :
  class2015_fix1 Grid.savanna_country2 Grid.origin = Some 17 <-> 0 = 1.
Proof.
  apply (builtup_decides_class17 Grid.savanna_country2 Grid.origin 0);
    vm_compute; reflexivity.
Defined.

(** X3. A pixel that stage 2 leaves as built-up (17) while the built-up
    indicator has data other than 1 is bare soil (15) after stage 3. *)
Theorem false_builtup_becomes_bare_soil {Pixel : Type} (A : Assets Pixel) (p : Pixel)
    (b : Z) :
  aoi A p = true ->
  classDDD_fill A p = Some 17 ->
  builtup A p = Some b -> b <> 1 ->
  class2015_fix1 A p = Some 15.
Proof.
  intros Hin Hv Hb Hne. rewrite fix1_at, Hin, Hv, Hb.
  destruct (Z.eqb_spec b 1); [contradiction | reflexivity].
Qed.

(** X4. Where the built-up indicator has no data, stage 3 changes nothing
    inside the study area: a pixel classified built-up (17) stays 17 there
    even though no built-up layer supports it. *)
Theorem builtup_without_data_frame {Pixel : Type} (A : Assets Pixel) (p : Pixel) :
  aoi A p = true ->
  builtup A p = None ->
  class2015_fix1 A p = classDDD_fill A p.
Proof.
  intros Hin Hb. rewrite fix1_at, Hin, Hb.
  destruct (classDDD_fill A p); reflexivity.
Qed.

Lemma false_builtup_becomes_bare_soil_witness :
  class2015_fix1 Scenes.village_unconfirmed Grid.origin = Some 15.
Proof.
  apply (false_builtup_becomes_bare_soil Scenes.village_unconfirmed Grid.origin 0);
    try (vm_compute; reflexivity). lia.
Defined.

Lemma builtup_without_data_frame_witness :
  class2015_fix1 Scenes.village_no_layer Grid.origin = Some 17.
Proof.
  apply (builtup_without_data_frame Scenes.village_no_layer Grid.origin);
    vm_compute; reflexivity.
Defined.

(** ** Stages 4 and 5 in closed form *)

Section ForestTypes.
Context {Pixel : Type}.
Variable A : Assets Pixel.
Implicit Types p : Pixel.

Lemma fix3_at p :
  class2015_fix3 A p =
    match class2015_fix1 A p, treecover2015 A p with
    | Some c, Some t =>
        if (c =? 2) || (c =? 4) then Some (if t <? 60 then 4 else 2) else Some c
    | other, _ => other
    end.
Proof.
  unfold class2015_fix3, class2015_fix2, forestdenseseche, forestclaireseche,
    forest_to_split, claire, dense.
  pointwise.
  destruct (class2015_fix1 A p) as [c|]; [| reflexivity].
  destruct (treecover2015 A p) as [t|]; [| reflexivity].
  rewrite Z.geb_leb.
  destruct (Z.eqb_spec c 2), (Z.eqb_spec c 4), (Z.ltb_spec t 60), (Z.leb_spec 60 t);
    subst; simpl; try reflexivity; lia.
Qed.

Lemma fix5_at p :
  class2015_fix5 A p =
    match class2015_fix1 A p, dem A p with
    | Some c, Some e =>
        if c =? 1 then
          if 1750 <=? e then Some 6
          else if 1100 <=? e then Some 5
          else class2015_fix3 A p
        else class2015_fix3 A p
    | _, _ => class2015_fix3 A p
    end.
Proof.
  unfold class2015_fix5, class2015_fix4, montane, submontane.
  pose proof (fix3_at p) as H3.
  pointwise.
  destruct (class2015_fix1 A p) as [c|].
  - destruct (class2015_fix3 A p) as [c3|].
    + destruct (dem A p) as [e|]; [| reflexivity].
      rewrite !Z.geb_leb.
      destruct (Z.eqb_spec c 1), (Z.leb_spec 1750 e), (Z.leb_spec 1100 e),
        (Z.ltb_spec e 1750); simpl; try reflexivity; lia.
    + destruct (treecover2015 A p); [| discriminate].
      destruct ((c =? 2) || (c =? 4)); discriminate.
  - rewrite H3. reflexivity.
Qed.
End ForestTypes.

(** X5. Canopy Density Splitter: a pixel classed 2 or 4 before the stage, with
    tree cover data, becomes 4 where the tree cover is below 60 and 2 where it
    is 60 or more, whichever of the two codes it had. *)
Theorem canopy_split_by_treecover {Pixel : Type} (A : Assets Pixel) (p : Pixel)
    (c t : Z) :
  class2015_fix1 A p = Some c -> c = 2 \/ c = 4 ->
  treecover2015 A p = Some t ->
  class2015_fix3 A p = Some (if t <? 60 then 4 else 2).
Proof.
  intros Hc Hsplit Ht. rewrite fix3_at, Hc, Ht.
  destruct Hsplit as [-> | ->]; reflexivity.
Qed.

Lemma canopy_split_by_treecover_witness :
  class2015_fix3 Scenes.thin_dry_forest Grid.origin = Some 4.
Proof.
  apply (canopy_split_by_treecover Scenes.thin_dry_forest Grid.origin 2 40);
    try (vm_compute; reflexivity). left; reflexivity.
Defined.

(** X6. Where the tree cover layer has no data, stage 4 changes no pixel, the
    two split codes included. *)
Theorem canopy_split_without_treecover {Pixel : Type} (A : Assets Pixel) (p : Pixel) :
  treecover2015 A p = None ->
  class2015_fix3 A p = class2015_fix1 A p.
Proof.
  intros Ht. rewrite fix3_at, Ht. destruct (class2015_fix1 A p); reflexivity.
Qed.

Lemma canopy_split_without_treecover_witness :
  class2015_fix3
    (Grid.uniform (Some 300) (Some 1) (Some 2) (Some 2) (Some 1) None
                  None None None None [Some 1] true true) Grid.origin
  = Some 2.
Proof.
  apply (canopy_split_without_treecover
           (Grid.uniform (Some 300) (Some 1) (Some 2) (Some 2) (Some 1) None
                         None None None None [Some 1] true true) Grid.origin).
  reflexivity.
Defined.

(** X7. Elevation typing of base forest: a pixel classed 1 before the canopy
    split, with elevation data, leaves stage 5 as montane (6) from 1750 m up,
    as submontane (5) from 1100 m up to 1750 m, and as 1 below 1100 m. *)
Theorem base_forest_by_elevation {Pixel : Type} (A : Assets Pixel) (p : Pixel) (e : Z) :
  class2015_fix1 A p = Some 1 ->
  dem A p = Some e ->
  class2015_fix5 A p =
    Some (if 1750 <=? e then 6 else if 1100 <=? e then 5 else 1).
Proof.
  intros Hc He. rewrite fix5_at, Hc, He, (base_forest_not_split A p Hc).
  destruct (1750 <=? e), (1100 <=? e); reflexivity.
Qed.

Lemma base_forest_by_elevation_witness :
  class2015_fix5 Scenes.hill_forest Grid.origin = Some 5.
Proof.
  apply (base_forest_by_elevation Scenes.hill_forest Grid.origin 1200);
    vm_compute; reflexivity.
Defined.

(** X8. The montane and the submontane masks are never both raised at a
    pixel: where one of them is 1 the other is 0. *)
Theorem montane_submontane_exclusive {Pixel : Type} (A : Assets Pixel) (p : Pixel) :
  (montane A p = Some 1 -> submontane A p = Some 0)
  /\ (submontane A p = Some 1 -> montane A p = Some 0).
Proof.
  unfold montane, submontane. pointwise.
  destruct (dem A p) as [e|]; [| split; discriminate].
  destruct (class2015_fix1 A p) as [c|]; [| split; discriminate].
  rewrite !Z.geb_leb.
  destruct (Z.leb_spec 1750 e), (Z.ltb_spec e 1750), (Z.leb_spec 1100 e),
    (Z.eqb_spec c 1); simpl; try lia; split; intros; try reflexivity;
    discriminate.
Qed.

(** X9. Stages 4 and 5 together change only the classes 1, 2 and 4: a pixel of
    any other class before stage 4 has that class after stage 5, whatever the
    tree cover and the elevation. *)
Theorem forest_stages_frame {Pixel : Type} (A : Assets Pixel) (p : Pixel) (c : Z) :
  class2015_fix1 A p = Some c ->
  c <> 1 -> c <> 2 -> c <> 4 ->
  class2015_fix5 A p = Some c.
Proof.
  intros Hc H1 H2 H4.
  assert (H3 : class2015_fix3 A p = Some c).
  { rewrite fix3_at, Hc. destruct (treecover2015 A p); [| reflexivity].
    destruct (Z.eqb_spec c 2), (Z.eqb_spec c 4); try contradiction. reflexivity. }
  rewrite fix5_at, Hc, H3.
  destruct (dem A p); [| reflexivity].
  destruct (Z.eqb_spec c 1); [contradiction | reflexivity].
Qed.

Lemma forest_stages_frame_witness :
  class2015_fix5 Grid.savanna_country2 Grid.origin = Some 12.
Proof.
  apply (forest_stages_frame Grid.savanna_country2 Grid.origin 12);
    try (vm_compute; reflexivity); lia.
Defined.

(** ** Stage 6: what the two overwrites leave alone *)

Section MangroveFrame.
Context {Pixel : Type}.
Variable focal_max : Z -> Image Pixel -> Image Pixel.
Variable A : Assets Pixel.
Implicit Types p : Pixel.

(** Outside the study area the masks of the stage have no data; there is
    nothing to overwrite there. *)
Lemma mangadd_without_indicator p :
  mangroves A p <> Some 1 ->
  mangadd focal_max A p = Some 0 \/ mangadd focal_max A p = None.
Proof.
  intros Hm. unfold mangadd. pointwise.
  destruct (mangroves A p) as [m|].
  - destruct (Z.eqb_spec m 1); [congruence |].
    destruct (mangarea focal_max A p); cbn; [now left |].
    by_footprint.
  - by_footprint.
Qed.

Lemma mangfix_without_indicator p :
  mangroves A p <> Some 1 -> mangfix A p = Some 0.
Proof.
  intros Hm. unfold mangfix. pointwise.
  destruct (mangroves A p) as [m|]; [| reflexivity].
  destruct (Z.eqb_spec m 1); [congruence |].
  destruct (nomang A p); reflexivity.
Qed.

Lemma nomang_lowered p e :
  dem A p = Some e -> e < 35 -> countries_raster A p <> Some 3 ->
  nomang A p = Some 0.
Proof.
  intros He Hlt Hc. destruct (countries_raster A p) as [c|] eqn:Ec.
  - rewrite (nomang_at A p e c He Ec).
    destruct (Z.leb_spec 35 e); [lia |].
    destruct (Z.eqb_spec c 3); [congruence | reflexivity].
  - apply nomang_no_country, Ec.
Qed.

Lemma mangarea_lowered p :
  mang_buffer focal_max A p = Some 0 \/ mang_buffer focal_max A p = None
  \/ (exists v, class2015_fix5 A p = Some v /\ 12 < v) ->
  mangarea focal_max A p = Some 0 \/ mangarea focal_max A p = None.
Proof.
  unfold mangarea. pointwise.
  intros [-> | [-> | (v & -> & Hv)]].
  - cbn [Z.eqb]. by_footprint.
  - by_footprint.
  - destruct (mang_buffer focal_max A p) as [b|]; [| by_footprint].
    destruct (b =? 0); [by_footprint |].
    destruct (dem A p) as [e|]; [| by_footprint].
    destruct (Z.leb_spec v 12); [lia |].
    left. cbn. rewrite ?andb_false_r. reflexivity.
Qed.

Lemma mangadd_without_area p :
  mangarea focal_max A p = Some 0 \/ mangarea focal_max A p = None ->
  mangadd focal_max A p = Some 0 \/ mangadd focal_max A p = None.
Proof.
  intros Ha. unfold mangadd. pointwise.
  destruct Ha as [-> | ->]; destruct (mangroves A p); cbn;
    try rewrite andb_false_r; try by_footprint; auto.
Qed.

Lemma eq1_lowered (a : Image Pixel) p :
  a p = Some 0 \/ a p = None ->
  ee.eq a (ee.constant 1) p = Some 0 \/ ee.eq a (ee.constant 1) p = None.
Proof. intros [H | H]; rewrite eq1_at, H; auto. Qed.

Lemma stage6_untouched p :
  mangadd focal_max A p = Some 0 \/ mangadd focal_max A p = None ->
  mangfix A p = Some 0 ->
  class2015_fix7 focal_max A p = class2015_fix5 A p.
Proof.
  intros Ha Hf. unfold class2015_fix7, class2015_fix6.
  rewrite where_miss by (left; apply eq1_of_zero, Hf).
  apply where_miss, eq1_lowered, Ha.
Qed.
End MangroveFrame.

(** X10. Stage 6 changes a pixel only where the internal mangrove indicator
    equals 1: elsewhere, and where the indicator has no data, the class of
    stage 5 is kept, so a pixel classified mangrove (7) far inland stays 7. *)
Theorem mangrove_indicator_frame {Pixel : Type}
    (focal_max : Z -> Image Pixel -> Image Pixel) (A : Assets Pixel) (p : Pixel) :
  mangroves A p <> Some 1 ->
  class2015_fix7 focal_max A p = class2015_fix5 A p.
Proof.
  intros Hm. apply stage6_untouched.
  - apply mangadd_without_indicator, Hm.
  - apply mangfix_without_indicator, Hm.
Qed.

Lemma mangrove_indicator_frame_witness :
  class2015_fix7 Grid.focal_max
    (Grid.uniform (Some 400) (Some 1) (Some 5) (Some 5) (Some 1) (Some 70)
                  (Some 0) (Some 95) None None [Some 1] true true) Grid.origin
  = Some 7.
Proof.
  apply (mangrove_indicator_frame Grid.focal_max
           (Grid.uniform (Some 400) (Some 1) (Some 5) (Some 5) (Some 1) (Some 70)
                         (Some 0) (Some 95) None None [Some 1] true true)
           Grid.origin).
  vm_compute. discriminate.
Defined.

(** X11. Mangrove is added below 35 m: a pixel with the mangrove indicator at
    1, a class of at most 12 after stage 5, inside the dilated buffer, below
    35 m and not in country 3 leaves stage 6 as mangrove (7). *)
Theorem mangrove_added {Pixel : Type}
    (focal_max : Z -> Image Pixel -> Image Pixel) (A : Assets Pixel) (p : Pixel)
    (v b e : Z) :
  mangroves A p = Some 1 ->
  class2015_fix5 A p = Some v -> v <= 12 ->
  mang_buffer focal_max A p = Some b -> b <> 0 ->
  dem A p = Some e -> e < 35 ->
  countries_raster A p <> Some 3 ->
  class2015_fix7 focal_max A p = Some 7.
Proof.
  intros Hm Hv Hv12 Hb Hnz He Hlt Hc.
  assert (Hin : aoi A p = true) by exact (inside_of_fix5 A p v Hv).
  assert (Ha : mangarea focal_max A p = Some 1)
    by (apply (mangarea_raised focal_max A p e v b); auto; lia).
  assert (H6 : class2015_fix6 focal_max A p = Some 7)
    by (apply mangrove_overwrite; [exact Hin | apply mangadd_raised; assumption]).
  unfold class2015_fix7. rewrite where_miss; [exact H6 |].
  left. apply eq1_of_zero, mangfix_lowered.
  exact (nomang_lowered A p e He Hlt Hc).
Qed.

Lemma mangrove_added_witness :
  class2015_fix5 Scenes.coast_swamp Grid.origin = Some 8
  /\ class2015_fix7 Grid.focal_max Scenes.coast_swamp Grid.origin = Some 7.
Proof.
  split; [vm_compute; reflexivity |].
  apply (mangrove_added Grid.focal_max Scenes.coast_swamp Grid.origin 8 1 3);
    try (vm_compute; reflexivity); try lia.
  vm_compute. discriminate.
Defined.

(** X12. Below 35 m and outside country 3, the internal mangrove indicator
    alone writes nothing: a pixel outside the dilated buffer (buffer 0 or
    without data), or of a class above 12, keeps the class of stage 5. *)
Theorem mangrove_not_added {Pixel : Type}
    (focal_max : Z -> Image Pixel -> Image Pixel) (A : Assets Pixel) (p : Pixel)
    (e : Z) :
  dem A p = Some e -> e < 35 ->
  countries_raster A p <> Some 3 ->
  mang_buffer focal_max A p = Some 0 \/ mang_buffer focal_max A p = None
  \/ (exists v, class2015_fix5 A p = Some v /\ 12 < v) ->
  class2015_fix7 focal_max A p = class2015_fix5 A p.
Proof.
  intros He Hlt Hc Hout. apply stage6_untouched.
  - apply mangadd_without_area, mangarea_lowered, Hout.
  - apply mangfix_lowered. exact (nomang_lowered A p e He Hlt Hc).
Qed.

Lemma mangrove_not_added_witness :
  mangroves Scenes.swamp_off_buffer Grid.origin = Some 1
  /\ class2015_fix7 Grid.focal_max Scenes.swamp_off_buffer Grid.origin = Some 8.
Proof.
  split; [reflexivity |].
  apply (mangrove_not_added Grid.focal_max Scenes.swamp_off_buffer Grid.origin 3);
    try (vm_compute; reflexivity); try lia.
  - vm_compute. discriminate.
  - left. vm_compute. reflexivity.
Defined.

(** ** Stage 7: the water flags and the two overwrites *)

Section Hydrology.
Context {Pixel : Type}.
Variable focal_max : Z -> Image Pixel -> Image Pixel.
Variable A : Assets Pixel.
Implicit Types p : Pixel.

(** The flags follow the clip of the water layer: 0 where the layer has no
    data inside the study area, no data outside it. *)
Lemma seasonal_at p :
  seasonal A p = match water_area A p with
                 | Some w => Some (b2z (w =? 2))
                 | None => if aoi A p then Some 0 else None
                 end.
Proof.
  unfold seasonal, water_area. pointwise.
  destruct (aoi A p); [| reflexivity]. destruct (ee.mosaic (water A) p); reflexivity.
Qed.

Lemma permanent_at p :
  permanent A p = match water_area A p with
                  | Some w => Some (b2z (w =? 3))
                  | None => if aoi A p then Some 0 else None
                  end.
Proof.
  unfold permanent, water_area. pointwise.
  destruct (aoi A p); [| reflexivity]. destruct (ee.mosaic (water A) p); reflexivity.
Qed.

Lemma inside_of_water_area p w : water_area A p = Some w -> aoi A p = true.
Proof.
  unfold water_area, ee.clip. cbn [px footprint].
  destruct (aoi A p); [reflexivity | discriminate].
Qed.

Lemma water_area_outside p : aoi A p = false -> water_area A p = None.
Proof. intros H. unfold water_area, ee.clip. cbn [px footprint]. rewrite H. reflexivity. Qed.

(** Stage 7 at one pixel. *)
Lemma fixwater_at p :
  class2015_fixwater focal_max A p =
    match class2015_fix7 focal_max A p with
    | None => None
    | Some v =>
        match water_area A p with
        | Some w =>
            if w =? 3 then Some 18
            else if (w =? 2) && negb (v =? 14) && negb (v =? 18) then Some 14
            else Some v
        | None => Some v
        end
    end.
Proof.
  destruct (class2015_fix7 focal_max A p) as [v|] eqn:H7.
  - assert (Hin : aoi A p = true)
      by (rewrite <- (has_data_fix7 focal_max A p); unfold has_data; rewrite H7;
          reflexivity).
    unfold class2015_fixwater, class2015_fixwater1, prairie.
    pose proof (seasonal_at p) as Hs. pose proof (permanent_at p) as Hp.
    rewrite Hin in Hs, Hp.
    pointwise. rewrite H7, Hs, Hp.
    destruct (water_area A p) as [w|]; [| reflexivity].
    destruct (Z.eqb_spec w 3), (Z.eqb_spec w 2); try lia; simpl;
      destruct (Z.eqb_spec v 14), (Z.eqb_spec v 18); try lia; subst; reflexivity.
  - apply fixwater_outside.
    rewrite <- (has_data_fix7 focal_max A p). unfold has_data. rewrite H7.
    reflexivity.
Qed.
End Hydrology.

(** X13. Inside the study area the seasonal and the permanent water flags are
    each 0 or 1; they are never both 1; outside the study area, where the
    water layer is clipped away, both have no data. *)
Theorem water_flags_exclusive {Pixel : Type} (A : Assets Pixel) (p : Pixel) :
  (aoi A p = true ->
   (seasonal A p = Some 0 \/ seasonal A p = Some 1)
   /\ (permanent A p = Some 0 \/ permanent A p = Some 1))
  /\ (seasonal A p = Some 1 -> permanent A p = Some 0)
  /\ (permanent A p = Some 1 -> seasonal A p = Some 0)
  /\ (aoi A p = false -> seasonal A p = None /\ permanent A p = None).
Proof.
  rewrite seasonal_at, permanent_at.
  assert (Hout : aoi A p = false -> water_area A p = None)
    by apply water_area_outside.
  destruct (water_area A p) as [w|].
  - destruct (Z.eqb_spec w 2), (Z.eqb_spec w 3); simpl; try lia;
      (split; [auto | split; [| split]]);
      try (intros H; apply Hout in H); try reflexivity; discriminate.
  - destruct (aoi A p); (split; [auto | split; [| split]]);
      try discriminate; auto.
Qed.

(** X14. A seasonally flooded pixel becomes aquatic grassland (14) whatever
    land class it had, built-up and cropland included; only a pixel that is
    already water (18) keeps its class. *)
Theorem seasonal_becomes_prairie {Pixel : Type}
    (focal_max : Z -> Image Pixel -> Image Pixel) (A : Assets Pixel) (p : Pixel)
    (v : Z) :
  seasonal A p = Some 1 ->
  class2015_fix7 focal_max A p = Some v ->
  class2015_fixwater focal_max A p = Some (if v =? 18 then 18 else 14).
Proof.
  intros Hs Hv. rewrite fixwater_at, Hv. rewrite seasonal_at in Hs.
  destruct (water_area A p) as [w|]; [| destruct (aoi A p); discriminate].
  destruct (Z.eqb_spec w 2); [subst; simpl | discriminate].
  destruct (Z.eqb_spec v 14), (Z.eqb_spec v 18); subst; try lia; reflexivity.
Qed.

Lemma seasonal_becomes_prairie_witness :
  class2015_fixwater Grid.focal_max Scenes.receding_water Grid.origin = Some 14.
Proof.
  apply (seasonal_becomes_prairie Grid.focal_max Scenes.receding_water Grid.origin 16);
    vm_compute; reflexivity.
Defined.

(** X15. Outside the study area neither output has data: the regional
    classification after stage 7, the final classification and the forest mask
    are all without data there, whatever the classifications, the water layer,
    the national map and the island map hold: the clip of stage 3 is kept by
    every later overwrite and by the [unmask] that ends stage 7. *)
Theorem no_data_outside_study_area {Pixel : Type}
    (focal_max : Z -> Image Pixel -> Image Pixel) (A : Assets Pixel) (p : Pixel) :
  aoi A p = false ->
  class2015_fixwater focal_max A p = None
  /\ class2015_final focal_max A p = None
  /\ fnf_final focal_max A p = None.
Proof.
  intros Hout. split; [exact (fixwater_outside focal_max A p Hout) |].
  split; [exact (final_outside focal_max A p Hout) |].
  unfold fnf_final, fnf. pointwise. rewrite Hout.
  destruct (lsib A p); reflexivity.
Qed.

Lemma no_data_outside_study_area_witness :
  class2015_fixwater Grid.focal_max Scenes.gabon_outside Grid.origin = None
  /\ class2015_final Grid.focal_max Scenes.gabon_outside Grid.origin = None
  /\ fnf_final Grid.focal_max Scenes.gabon_outside Grid.origin = None.
Proof.
  apply (no_data_outside_study_area Grid.focal_max Scenes.gabon_outside Grid.origin).
  reflexivity.
Defined.

(** X16. A pixel that the water layer sees neither as seasonal nor as
    permanent water keeps its class through stage 7. *)
Theorem dry_pixel_frame {Pixel : Type}
    (focal_max : Z -> Image Pixel -> Image Pixel) (A : Assets Pixel) (p : Pixel)
    (v : Z) :
  seasonal A p = Some 0 ->
  permanent A p = Some 0 ->
  class2015_fix7 focal_max A p = Some v ->
  class2015_fixwater focal_max A p = Some v.
Proof.
  intros Hs Hp Hv. rewrite fixwater_at, Hv.
  rewrite seasonal_at in Hs. rewrite permanent_at in Hp.
  destruct (water_area A p) as [w|]; [| reflexivity].
  destruct (Z.eqb_spec w 3); [discriminate |].
  destruct (Z.eqb_spec w 2); [discriminate | reflexivity].
Qed.

Lemma dry_pixel_frame_witness :
  class2015_fixwater Grid.focal_max Scenes.hill_forest Grid.origin = Some 5.
Proof.
  apply (dry_pixel_frame Grid.focal_max Scenes.hill_forest Grid.origin 5);
    vm_compute; reflexivity.
Defined.

(** ** The codes the regional stages can write *)

Section Codes.
Context {Pixel : Type}.
Implicit Types (input test value a : Image Pixel) (p : Pixel).

Lemma codes_where input test value p :
  all_codes input p -> all_codes value p -> all_codes (ee.where_ input test value) p.
Proof.
  unfold all_codes, ee.where_. cbn [px footprint]. intros Hi Hv x.
  destruct (input p) as [i|]; [| discriminate].
  destruct (test p) as [t|]; simpl; [| intros [= <-]; auto].
  destruct (value p) as [w|]; simpl; [| intros [= <-]; auto].
  destruct (t =? 0); intros [= <-]; auto.
Qed.

Lemma codes_constant k p : ddd_code k = true -> all_codes (ee.constant k) p.
Proof. intros Hk v [= <-]. exact Hk. Qed.

Lemma codes_clip a (g : Geometry Pixel) p : all_codes a p -> all_codes (ee.clip a g) p.
Proof. unfold all_codes, ee.clip. cbn [px footprint]. intros Ha v. destruct (g p); [auto | discriminate]. Qed.

Lemma codes_unmask a p : all_codes a p -> all_codes (ee.unmask a) p.
Proof.
  unfold all_codes, ee.unmask. cbn [px footprint]. intros Ha v.
  destruct (a p) as [x|]; [intros [= <-]; auto |].
  destruct (footprint a p); [intros [= <-]; reflexivity | discriminate].
Qed.

Lemma codes_recode a p :
  all_codes (ee.remap a [1;2;3;4;5;6;7;8;9;10;11;12;13;14;15]
                        [1;2;3;4;7;8;9;11;12;13;14;15;16;17;18]) p.
Proof.
  unfold all_codes, ee.remap. cbn [px footprint]. intros v. destruct (a p) as [x|]; [| discriminate].
  intros H. apply lookup_In in H. simpl in H.
  repeat (destruct H as [<- | H]; [reflexivity |]). contradiction.
Qed.
End Codes.

Section RegionalCodes.
Context {Pixel : Type}.
Variable focal_max : Z -> Image Pixel -> Image Pixel.
Variable A : Assets Pixel.
Implicit Types p : Pixel.

Lemma codes_fill p : all_codes (classDDD_fill A) p.
Proof.
  unfold classDDD_fill, classDDD, classDDD_no_alos, class_values, reclass_values.
  apply codes_where; apply codes_unmask, codes_recode.
Qed.

Lemma codes_fix1 p : all_codes (class2015_fix1 A) p.
Proof.
  unfold class2015_fix1, class2015_fix, built17.
  apply codes_clip, codes_where; [| now apply codes_constant].
  apply codes_where; [apply codes_fill | now apply codes_constant].
Qed.

Lemma codes_fix5 p : all_codes (class2015_fix5 A) p.
Proof.
  unfold class2015_fix5, class2015_fix4, class2015_fix3, class2015_fix2.
  do 4 (apply codes_where; [| now apply codes_constant]).
  apply codes_fix1.
Qed.

Lemma codes_fixwater p : all_codes (class2015_fixwater focal_max A) p.
Proof.
  unfold class2015_fixwater, class2015_fixwater1, class2015_fix7, class2015_fix6.
  apply codes_unmask.
  do 4 (apply codes_where; [| now apply codes_constant]).
  apply codes_fix5.
Qed.
End RegionalCodes.

Lemma regional_codes_aux {Pixel : Type}
    (focal_max : Z -> Image Pixel -> Image Pixel) (A : Assets Pixel) (p : Pixel)
    (v : Z) :
  class2015_fixwater focal_max A p = Some v -> 0 <= v <= 18 /\ v <> 10.
Proof.
  intros Hv.
  pose proof (codes_fixwater focal_max A p v Hv) as Hc. unfold ddd_code in Hc.
  destruct (Z.leb_spec 0 v), (Z.leb_spec v 18), (Z.eqb_spec v 10);
    simpl in Hc; try discriminate. lia.
Qed.

Lemma has_data_iff {Pixel : Type} (a : Image Pixel) (p : Pixel) (b : bool) :
  has_data a p = b -> (b = true <-> exists v, a p = Some v).
Proof.
  unfold has_data. destruct (a p) as [v|]; intros <-; split; eauto;
    try discriminate. intros [v H]. discriminate.
Qed.

(** X17. The regional classification after stage 7 has a value exactly at the
    pixels of the study area, and that value is 0 or a code from 1 to 18 other
    than 10: the stages never write class 10, class 19, or a code outside the
    legend. *)
Theorem regional_codes {Pixel : Type}
    (focal_max : Z -> Image Pixel -> Image Pixel) (A : Assets Pixel) (p : Pixel) :
  (aoi A p = true <-> exists v, class2015_fixwater focal_max A p = Some v)
  /\ (forall v, class2015_fixwater focal_max A p = Some v ->
                0 <= v <= 18 /\ v <> 10).
Proof.
  split.
  - apply has_data_iff, has_data_fixwater.
  - intros v Hv.
    pose proof (codes_fixwater focal_max A p v Hv) as Hc. unfold ddd_code in Hc.
    destruct (Z.leb_spec 0 v), (Z.leb_spec v 18), (Z.eqb_spec v 10);
      simpl in Hc; try discriminate. lia.
Qed.

(** X18. The composite of regional and national data has a value exactly at
    the pixels of the study area, and never carries the national no-data
    sentinel 128. *)
Theorem sentinel_never_in_composite {Pixel : Type}
    (focal_max : Z -> Image Pixel -> Image Pixel) (A : Assets Pixel) (p : Pixel) :
  (aoi A p = true <-> exists v, class2015_clean focal_max A p = Some v)
  /\ (forall v, class2015_clean focal_max A p = Some v -> v <> 128).
Proof.
  split; [apply has_data_iff, has_data_clean |].
  intros v Hv.
  assert (Hin : aoi A p = true).
  { rewrite <- (has_data_clean focal_max A p). unfold has_data. rewrite Hv.
    reflexivity. }
  rewrite (clean_at focal_max A p Hin) in Hv.
  assert (Hreg : class2015_fixwater focal_max A p = Some v -> v <> 128)
    by (intros H; apply regional_codes_aux in H; lia).
  destruct (countries_raster A p) as [c|]; [| auto].
  destruct (gabon_os A p) as [g|]; [| auto].
  destruct (Z.eqb_spec c 6), (Z.eqb_spec g 128); simpl in Hv; auto.
  injection Hv as <-. assumption.
Qed.

(** ** Stage 9: the forest mask by class *)

Section ForestMaskByClass.
Context {Pixel : Type}.
Variable focal_max : Z -> Image Pixel -> Image Pixel.
Variable A : Assets Pixel.
Implicit Types p : Pixel.

Lemma fnf_at p :
  fnf focal_max A p =
    if aoi A p then
      match class2015_final focal_max A p with
      | Some c => fnf_code c
      | None => None
      end
    else None.
Proof.
  unfold fnf, ee.clip, ee.remap. cbn [px footprint]. destruct (aoi A p); [| reflexivity].
  destruct (class2015_final focal_max A p) as [c|]; [| reflexivity].
  apply lookup_fnf.
Qed.

Lemma fnf_code_range c f : fnf_code c = Some f -> f = 1 \/ f = 2 \/ f = 3.
Proof.
  unfold fnf_code.
  destruct (((1 <=? c) && (c <=? 9)) || (c =? 11)); [intros [= <-]; auto |].
  destruct ((12 <=? c) && (c <=? 17)); [intros [= <-]; auto |].
  destruct (c =? 18); [intros [= <-]; auto | discriminate].
Qed.

Lemma car_cam_outside p :
  countries_raster A p <> Some 2 -> countries_raster A p <> Some 3 ->
  car_cam A p = Some 0 \/ car_cam A p = None.
Proof.
  intros H2 H3. unfold car_cam. pointwise.
  destruct (countries_raster A p) as [c|]; [| now right].
  destruct (Z.eqb_spec c 2), (Z.eqb_spec c 3); subst; try congruence. now left.
Qed.

(** The override does nothing where its mask is 0 or has no data. *)
Lemma fnf_final_without_override p :
  caf_sav focal_max A p = Some 0 \/ caf_sav focal_max A p = None ->
  fnf_final focal_max A p = if lsib A p then fnf focal_max A p else None.
Proof.
  intros Hs. unfold fnf_final. unfold ee.clip at 1. cbn [px footprint].
  destruct (lsib A p); [| reflexivity].
  apply where_miss. destruct Hs as [Hs | Hs].
  - left. apply eq1_of_zero, Hs.
  - right. rewrite eq1_at, Hs. reflexivity.
Qed.
End ForestMaskByClass.

(** X19. Forest mask by class: for a pixel of any class other than 12 in the
    final classification, whatever its country, the mask inside the study area
    and the boundary vector is forest (1) for the classes 1 to 9 and 11,
    non-forest (2) for 13 to 17, water (3) for 18, and without data for every
    other value (0, 10, 19 and beyond); outside either clip it has no data. *)
Theorem forest_mask_by_class {Pixel : Type}
    (focal_max : Z -> Image Pixel -> Image Pixel) (A : Assets Pixel) (p : Pixel)
    (c : Z) :
  class2015_final focal_max A p = Some c ->
  c <> 12 ->
  fnf_final focal_max A p = if aoi A p && lsib A p then fnf_code c else None.
Proof.
  intros Hc Hne.
  rewrite fnf_final_without_override.
  - rewrite fnf_at, Hc. destruct (aoi A p), (lsib A p); reflexivity.
  - unfold caf_sav. pointwise. rewrite Hc.
    destruct (Z.eqb_spec c 12); [contradiction |].
    destruct (car_cam A p) as [k|]; [left | right; reflexivity].
    simpl. rewrite andb_false_r. reflexivity.
Qed.

Lemma forest_mask_by_class_witness :
  class2015_final Grid.focal_max Scenes.gabon_plantation Grid.origin = Some 10
  /\ fnf_final Grid.focal_max Scenes.gabon_plantation Grid.origin = None.
Proof.
  split; [vm_compute; reflexivity |].
  apply (forest_mask_by_class Grid.focal_max Scenes.gabon_plantation Grid.origin 10);
    [vm_compute; reflexivity | lia].
Defined.

(** X20. Shrub savanna (12) outside the countries 2 and 3, or where the
    country raster has no data, is non-forest (2) in the mask inside both
    clips. *)
Theorem savanna_elsewhere_is_non_forest {Pixel : Type}
    (focal_max : Z -> Image Pixel -> Image Pixel) (A : Assets Pixel) (p : Pixel) :
  class2015_final focal_max A p = Some 12 ->
  countries_raster A p <> Some 2 ->
  countries_raster A p <> Some 3 ->
  fnf_final focal_max A p = if aoi A p && lsib A p then Some 2 else None.
Proof.
  intros Hc H2 H3.
  rewrite fnf_final_without_override.
  - rewrite fnf_at, Hc. destruct (aoi A p), (lsib A p); reflexivity.
  - unfold caf_sav. pointwise. rewrite Hc.
    destruct (car_cam_outside A p H2 H3) as [-> | ->]; [left | right]; reflexivity.
Qed.

Lemma savanna_elsewhere_is_non_forest_witness :
  fnf_final Grid.focal_max Scenes.savanna_country5 Grid.origin = Some 2.
Proof.
  apply (savanna_elsewhere_is_non_forest Grid.focal_max Scenes.savanna_country5
           Grid.origin); vm_compute; try reflexivity; discriminate.
Defined.

(** X21. The forest mask has no other value than 1, 2 and 3: every pixel is
    forest, non-forest, water or without data, and never 0. *)
Theorem forest_mask_values {Pixel : Type}
    (focal_max : Z -> Image Pixel -> Image Pixel) (A : Assets Pixel) (p : Pixel) :
  fnf_final focal_max A p = None
  \/ fnf_final focal_max A p = Some 1
  \/ fnf_final focal_max A p = Some 2
  \/ fnf_final focal_max A p = Some 3.
Proof.
  pose proof (fnf_at focal_max A p) as Hf.
  unfold fnf_final. pointwise.
  destruct (lsib A p); [| now left].
  destruct (fnf focal_max A p) as [f|]; [| now left].
  assert (Hr : f = 1 \/ f = 2 \/ f = 3).
  { destruct (aoi A p); [| discriminate].
    destruct (class2015_final focal_max A p) as [c|]; [| discriminate].
    symmetry in Hf. exact (fnf_code_range c f Hf). }
  destruct (caf_sav focal_max A p) as [s|]; simpl.
  - destruct (s =? 1); simpl; [now right; left |].
    destruct Hr as [-> | [-> | ->]]; auto.
  - destruct Hr as [-> | [-> | ->]]; auto.
Qed.

(** ** The water layer: which year is read *)

Section WaterYears.
Context {Pixel : Type}.
Implicit Types (c later : ImageCollection Pixel) (p : Pixel).

Lemma mosaic_step_masked later :
  forall (below : Pixel -> option Z) p,
    (forall img, In img later -> img p = None) ->
    fold_left
      (fun below (img : Image Pixel) q =>
         match img q with Some v => Some v | None => below q end)
      later below p = below p.
Proof.
  induction later as [| img later IH]; intros below p Hm; simpl; [reflexivity |].
  rewrite IH by (intros i Hi; apply Hm; now right).
  rewrite (Hm img) by now left. reflexivity.
Qed.

Lemma mosaic_latest c (recent : Image Pixel) later p w :
  (forall img, In img later -> img p = None) ->
  recent p = Some w ->
  ee.mosaic (c ++ recent :: later) p = Some w.
Proof.
  intros Hm Hw. unfold ee.mosaic. cbn [px footprint]. rewrite fold_left_app. simpl.
  rewrite mosaic_step_masked by exact Hm. rewrite Hw. reflexivity.
Qed.

Lemma mosaic_no_data c p :
  (forall img, In img c -> img p = None) -> ee.mosaic c p = None.
Proof. intros Hm. unfold ee.mosaic. cbn [px footprint]. rewrite mosaic_step_masked by exact Hm. reflexivity. Qed.
End WaterYears.

(** X22. The water state of a pixel is that of the latest year of the
    collection with data at the pixel: earlier years are ignored, even where
    they disagree, and inside the study area the seasonal flag is 1 exactly
    when that year says 2 and the permanent flag exactly when it says 3. *)
Theorem water_state_is_latest_year {Pixel : Type} (A : Assets Pixel) (p : Pixel)
    (earlier later : ImageCollection Pixel) (recent : Image Pixel) (w : Z) :
  water A = earlier ++ recent :: later ->
  (forall img, In img later -> img p = None) ->
  recent p = Some w ->
  aoi A p = true ->
  water_area A p = Some w
  /\ seasonal A p = Some (b2z (w =? 2))
  /\ permanent A p = Some (b2z (w =? 3)).
Proof.
  intros Hw Hm Hr Hin.
  assert (Ha : water_area A p = Some w).
  { unfold water_area, ee.clip. cbn [px footprint]. rewrite Hin, Hw. apply mosaic_latest; assumption. }
  rewrite seasonal_at, permanent_at, Ha. auto.
Qed.

Lemma water_state_is_latest_year_witness :
  water_area Grid.flooded_cropland Grid.origin = Some 3
  /\ seasonal Grid.flooded_cropland Grid.origin = Some 0
  /\ permanent Grid.flooded_cropland Grid.origin = Some 1.
Proof.
  apply (water_state_is_latest_year Grid.flooded_cropland Grid.origin
           [ee.asset (fun _ => Some 2)] [] (ee.asset (fun _ => Some 3)) 3);
    try reflexivity.
  intros img [].
Defined.

(** X23. Where no year of the water collection has data, both water flags are
    0 and stage 7 keeps the class of stage 6. *)
Theorem no_water_data_frame {Pixel : Type}
    (focal_max : Z -> Image Pixel -> Image Pixel) (A : Assets Pixel) (p : Pixel)
    (v : Z) :
  (forall img, In img (water A) -> img p = None) ->
  class2015_fix7 focal_max A p = Some v ->
  seasonal A p = Some 0 /\ permanent A p = Some 0
  /\ class2015_fixwater focal_max A p = Some v.
Proof.
  intros Hm Hv.
  assert (Ha : water_area A p = None).
  { unfold water_area, ee.clip. cbn [px footprint]. rewrite (mosaic_no_data _ p Hm).
    destruct (aoi A p); reflexivity. }
  assert (Hin : aoi A p = true).
  { rewrite <- (has_data_fix7 focal_max A p). unfold has_data. rewrite Hv.
    reflexivity. }
  rewrite seasonal_at, permanent_at, fixwater_at, Hv, Ha, Hin. auto.
Qed.

Lemma no_water_data_frame_witness :
  class2015_fixwater Grid.focal_max
    (Grid.uniform (Some 300) (Some 1) (Some 13) (Some 13) (Some 1) (Some 5)
                  None None None None [None; None] true true) Grid.origin
  = Some 16.
Proof.
  apply (no_water_data_frame Grid.focal_max
           (Grid.uniform (Some 300) (Some 1) (Some 13) (Some 13) (Some 1) (Some 5)
                         None None None None [None; None] true true)
           Grid.origin 16).
  - intros img [<- | [<- | []]]; reflexivity.
  - vm_compute. reflexivity.
Defined.

(** ** Stage 2: when a hole remains *)

(** X24. After the gap filling a pixel is unclassified (0) exactly when both
    classifications are: a hole remains only where the run with ALOS and the
    run without ALOS both have no class of the table. *)
Theorem hole_remains_iff {Pixel : Type} (A : Assets Pixel) (p : Pixel) :
  classDDD_fill A p = Some 0
  <-> classDDD A p = Some 0 /\ classDDD_no_alos A p = Some 0.
Proof.
  destruct (has_data_Some _ p (has_data_classDDD A p)) as [v Hv].
  assert (Hfill : classDDD_fill A p
                  = if v =? 0 then classDDD_no_alos A p else Some v).
  { unfold classDDD_fill, alosholes. pointwise. rewrite Hv.
    destruct (classDDD_no_alos A p) as [w|] eqn:Hw.
    - destruct (Z.eqb_spec v 0); reflexivity.
    - exfalso. unfold classDDD_no_alos, ee.unmask in Hw. cbn [px footprint] in Hw.
      destruct (ee.remap _ _ _ p); discriminate. }
  rewrite Hfill, Hv.
  destruct (Z.eqb_spec v 0) as [-> | Hne].
  - tauto.
  - split; [intros [= H]; contradiction | intros [[= H] _]; contradiction].
Qed.

(** ** Through the whole pipeline *)

(** X25. A settlement end to end: inside the study area and the boundary
    vector, a pixel that the settlement layer marks as built, without the
    mangrove indicator, without seasonal or permanent water, outside country 6
    and off the island, is built-up (17) in the final classification and
    non-forest (2) in the forest mask, whatever the two classifications, the
    tree cover and the elevation say. *)
Theorem settlement_end_to_end {Pixel : Type}
    (focal_max : Z -> Image Pixel -> Image Pixel) (A : Assets Pixel) (p : Pixel) :
  aoi A p = true -> lsib A p = true ->
  builtup A p = Some 1 ->
  mangroves A p <> Some 1 ->
  seasonal A p = Some 0 -> permanent A p = Some 0 ->
  countries_raster A p <> Some 6 ->
  anno_area A p = Some 0 ->
  class2015_final focal_max A p = Some 17
  /\ fnf_final focal_max A p = Some 2.
Proof.
  intros Hin Hls Hb Hm Hs Hp Hc Hi.
  assert (H1 : class2015_fix1 A p = Some 17).
  { rewrite fix1_at, Hin, Hb.
    destruct (has_data_Some _ p (has_data_fill A p)) as [v ->]. reflexivity. }
  assert (H3 : class2015_fix3 A p = Some 17).
  { rewrite fix3_at, H1. destruct (treecover2015 A p); reflexivity. }
  assert (H5 : class2015_fix5 A p = Some 17).
  { rewrite fix5_at, H1, H3. destruct (dem A p); reflexivity. }
  assert (H7 : class2015_fix7 focal_max A p = Some 17).
  { rewrite <- H5. apply stage6_untouched.
    - apply mangadd_without_indicator, Hm.
    - apply mangfix_without_indicator, Hm. }
  assert (Hw : class2015_fixwater focal_max A p = Some 17).
  { rewrite fixwater_at, H7. rewrite seasonal_at in Hs. rewrite permanent_at in Hp.
    destruct (water_area A p) as [w|]; [| reflexivity].
    destruct (Z.eqb_spec w 3); [discriminate |].
    destruct (Z.eqb_spec w 2); [discriminate | reflexivity]. }
  assert (Hf : class2015_final focal_max A p = Some 17).
  { rewrite (no_island focal_max A p Hi), (clean_at focal_max A p Hin), Hw.
    destruct (countries_raster A p) as [c|]; [| reflexivity].
    destruct (gabon_os A p) as [g|]; [| reflexivity].
    destruct (Z.eqb_spec c 6); [congruence | reflexivity]. }
  split; [exact Hf |].
  rewrite fnf_final_without_override.
  - rewrite Hls, fnf_at, Hin, Hf. reflexivity.
  - unfold caf_sav. pointwise. rewrite Hf.
    destruct (car_cam A p); [left | right]; [| reflexivity].
    simpl. rewrite andb_false_r. reflexivity.
Qed.

Lemma settlement_end_to_end_witness :
  class2015_final Grid.focal_max
    (Grid.uniform (Some 300) (Some 1) (Some 1) (Some 3) (Some 4) (Some 80)
                  None None None None [Some 1] true true) Grid.origin
  = Some 17
  /\ fnf_final Grid.focal_max
       (Grid.uniform (Some 300) (Some 1) (Some 1) (Some 3) (Some 4) (Some 80)
                     None None None None [Some 1] true true) Grid.origin
     = Some 2.
Proof.
  apply (settlement_end_to_end Grid.focal_max
           (Grid.uniform (Some 300) (Some 1) (Some 1) (Some 3) (Some 4) (Some 80)
                         None None None None [Some 1] true true) Grid.origin);
    vm_compute; try reflexivity; discriminate.
Defined.
